(** * Verification of the pattern watcher and of its supervisor

    Shallow embedding of [scripts/watcher.py] (the scan-and-aggregate
    engine) and of [scripts/unified_watcher.py] (the supervisor), with the
    properties of the specification stated and proved over it.

    Python dicts are [gmap]s, Python sets are [gset]s, Python integers are
    [Z]; printing, saving and uploading are recorded as a trace of
    events. *)

From Stdlib Require Import ZArith Lia Sorted.
From stdpp Require Import base option list gmap sets strings.

Local Open Scope string_scope.
Local Open Scope Z_scope.
Local Open Scope list_scope.

(* ===================================================================== *)
(** * Command line of the engine ([main], lines 207-217 of watcher.py) *)
(* ===================================================================== *)

Module Cli.

(** [s.startswith("--")] *)
Definition startswith_dashes (s : string) : bool := String.prefix "--" s.

(** The loop [for i, arg in enumerate(sys.argv)], written on the suffix
    of [sys.argv] that starts at index [i]: [arg] is its head,
    [sys.argv[i + 1]] and [sys.argv[i + 2]] are the next two elements
    when they exist.  The accumulator is the pair
    [(api_url, api_secret)]; the [break] is the branch that does not
    recurse. *)
Fixpoint scan_args (argv : list string) (api_url api_secret : option string)
  : option string * option string :=
  match argv with
  | [] => (api_url, api_secret)
  | arg :: rest =>
      match rest with
      | next :: rest' =>
          if bool_decide (arg = "--upload") then
            (Some next,
             match rest' with
             | s :: _ => if negb (startswith_dashes s) then Some s else api_secret
             | [] => api_secret
             end)
          else if bool_decide (arg = "--secret") then
            scan_args rest api_url (Some next)
          else scan_args rest api_url api_secret
      | [] => scan_args rest api_url api_secret
      end
  end.

(** [api_url = SERVER_URL; api_secret = None] followed by the loop. *)
Definition parse_args (SERVER_URL : option string) (argv : list string)
  : option string * option string :=
  scan_args argv SERVER_URL None.

End Cli.

(* ===================================================================== *)
(** * The supervisor ([WatcherProcess] of unified_watcher.py) *)
(* ===================================================================== *)

Module Supervisor.

(** The fields of [WatcherProcess] that [check_and_restart] reads or
    writes.  [alive] is the value of [is_alive()]: the subprocess exists
    and [poll()] is [None].  Times are the values of [time.time()], in
    seconds. *)
Record WatcherProcess := {
  alive : bool;
  restart_count : Z;
  restart_times : list Z;
}.

Definition max_restarts : nat := 5.
Definition restart_window : Z := 60.

(** [__init__] followed by the first [start()] of [main]. *)
Definition started : WatcherProcess :=
  {| alive := true; restart_count := 0; restart_times := [] |}.

(** The subprocess exits on its own (the environment's move). *)
Definition crash (w : WatcherProcess) : WatcherProcess :=
  {| alive := false; restart_count := restart_count w;
     restart_times := restart_times w |}.

(** [[t for t in self.restart_times if current_time - t < self.restart_window]] *)
Definition recent (current_time : Z) (times : list Z) : list Z :=
  filter (λ t, current_time - t < restart_window) times.

(** [check_and_restart], with [current_time] the value [time.time()]
    returns in it.  The result is the returned boolean and the object
    after the call; [start()] launches a new subprocess, which is then
    alive. *)
Definition check_and_restart (current_time : Z) (w : WatcherProcess)
  : bool * WatcherProcess :=
  if alive w then (false, w)
  else
    let times := recent current_time (restart_times w) in
    if bool_decide (max_restarts ≤ length times)%nat then
      (false, {| alive := false; restart_count := restart_count w;
                 restart_times := times |})
    else
      (true, {| alive := true; restart_count := restart_count w + 1;
                restart_times := times ++ [current_time] |}).

(** One turn of the monitoring loop of [main] for one watcher: the
    subprocess may have died since the last turn, then the health
    check runs. *)
Definition monitor (w : WatcherProcess) (turn : bool * Z) : WatcherProcess :=
  let '(died, current_time) := turn in
  (check_and_restart current_time (if died then crash w else w)).2.

(** The same turn, keeping the times at which [check_and_restart]
    returned [True]: the log of the restarts. *)
Definition monitor_logged (acc : WatcherProcess * list Z) (turn : bool * Z)
  : WatcherProcess * list Z :=
  let '(died, current_time) := turn in
  let checked := check_and_restart current_time (if died then crash acc.1 else acc.1) in
  (checked.2, if checked.1 then acc.2 ++ [current_time] else acc.2).

(** [arg in ("--secret", "--upload")] *)
Definition is_option (arg : string) : bool :=
  bool_decide (arg = "--secret") || bool_decide (arg = "--upload").

(** The loop of [start] over [enumerate(sys.argv[1:], 1)], written on the
    rest of the arguments: [after_option] says whether the argument
    before the head, [sys.argv[i-1]], exists among [sys.argv[1:]]
    ([i > 1]) and is one of the two options.  The result is what is
    appended to [cmd]. *)
Fixpoint forward_from (after_option : bool) (args : list string) : list string :=
  match args with
  | [] => []
  | arg :: rest =>
      if is_option arg || after_option
      then arg :: forward_from (is_option arg) rest
      else forward_from (is_option arg) rest
  end.

(** The arguments [start] passes through, from the [sys.argv] of the
    supervisor. *)
Definition forwarded (argv : list string) : list string :=
  match argv with
  | [] => []
  | _ :: args => forward_from false args
  end.

(** The [sys.argv] of the subprocess launched with
    [cmd = [sys.executable, str(self.script_path)] + forwarded]. *)
Definition child_argv (script_path : string) (argv : list string) : list string :=
  script_path :: forwarded argv.

End Supervisor.

(* ===================================================================== *)
(** * The engine ([scripts/watcher.py]) *)
(* ===================================================================== *)

(** What [watcher.py] imports and does not define: the names of
    [claude_counter] it uses, and the regular-expression search of [re].
    [PATTERNS] is a dict from pattern name to expression; [get_utc_today]
    is the value [get_utc_today()] returns during the run (one UTC day);
    [re_search pattern text] says whether
    [re.compile(pattern, re.IGNORECASE).search(text)] finds a match. *)
Class claude_counter := {
  PATTERNS : gmap string string;
  SERVER_URL : option string;
  get_utc_today : string;
  get_project_display_name : string → string;
  re_search : string → string → bool;
}.

(** ** Log lines *)

(** [entry.get("timestamp", "")]: absent or empty; present but refused by
    [datetime.fromisoformat] (which raises); or present with the calendar
    date [strftime("%Y-%m-%d")] gives. *)
Inductive timestamp :=
| TsAbsent
| TsInvalid
| TsDate (date_str : string).

(** The fields of a decoded log line that the engine reads; [e_texts] are
    the plain-text segments of the message content, in order. *)
Record entry := {
  e_type : option string;
  e_uuid : option string;
  e_requestId : option string;
  e_timestamp : timestamp;
  e_texts : list string;
}.

(** One line of a [.jsonl] file: [json.loads] raises, or yields a value
    the entry is read from.  (A decoded value that is not an object makes
    [entry.get] raise inside the same handler: it is [Unparsable] too.) *)
Inductive line :=
| Unparsable
| Parsed (e : entry).

(** A project directory under the scan root.  A file is the list of lines
    its iteration yields: a file that cannot be opened yields none, and a
    read error ends the file, as the outer handler around [open] does. *)
Record project_dir := {
  dir_name : string;
  is_dir : bool;
  jsonl_files : list (list line);
}.

(** A [.jsonl] file as [for line in f] meets it.  Either every line
    decodes as text, or one line holds bytes that the text decoder
    refuses: the iteration then raises, outside the handler of the loop
    body, and the handler around [open] passes (lines 303-361 of
    watcher.py, and the same at 112-133 and 154-197).  The decoder works
    on chunks of the file, not on lines: of the lines before the
    undecodable one, [read] were yielded before the decoder reached its
    chunk and [lost] lie in that chunk; [rest] are the lines after it. *)
Inductive jsonl_file :=
| Readable (lines : list line)
| DecodeError (read lost rest : list line).






(** What [process_message_entry] returns when it returns a result. *)
Record result := {
  msg_id : string;
  date_str : string;
  text_blocks : list (string * gset string);
}.

(** ** Persistent stores and the trace of effects *)

(** The in-memory copies of the stores that [main] holds. *)
Record state := {
  processed_ids : gset string;
  project_counts : gmap string Z;
  pattern_counts : gmap string (gmap string Z);
  total_messages_counts : gmap string Z;
}.

(** The store files; [None] (or no key, for the per-pattern files) is a
    file that is missing or does not decode. *)
Record disk := {
  processed_ids_json : option (gset string);
  project_counts_json : option (gmap string Z);
  daily_counts_json : gmap string (gmap string Z);
  daily_total_messages_json : option (gmap string Z);
}.

(** The lines [main] prints, with the data they interpolate. *)
Inductive message :=
| MsgBanner (api_url : option string)
| MsgBackfillingTotal
| MsgFoundTotal (today_total_actual : Z)
| MsgBackfillingPatterns
| MsgFoundPattern (count : Z) (pattern_name : string)
| MsgUploading (today_patterns : gmap string Z) (today_total : Z)
| MsgUploadSuccessful
| MsgUploadFailed
| MsgSeparator
| MsgRootNotFound
| MsgSetEnvironment
| MsgMatch (match_types : gset string) (project_name : string)
           (first_match_text : option string)
| MsgUpdated (new_matches : gmap string Z) (new_total : Z)
| MsgUploaded (today_patterns : gmap string Z) (today_total : Z).

(** The observable effects of the engine, in the order they happen. *)
Inductive event :=
| Print (m : message)
| SaveProcessedIds (ids_set : gset string)
| SaveProjectCounts (counts : gmap string Z)
| SavePatternCounts (pattern_name : string) (counts : gmap string Z)
| SaveTotalMessagesCounts (counts : gmap string Z)
| UploadToApi (api_url : string) (api_secret : option string) (date : string)
              (patterns_dict : gmap string Z) (total_messages : Z).

(** The [save_*] functions replace the whole file. *)
Definition write (d : disk) (e : event) : disk :=
  match e with
  | SaveProcessedIds ids =>
      {| processed_ids_json := Some ids;
         project_counts_json := project_counts_json d;
         daily_counts_json := daily_counts_json d;
         daily_total_messages_json := daily_total_messages_json d |}
  | SaveProjectCounts c =>
      {| processed_ids_json := processed_ids_json d;
         project_counts_json := Some c;
         daily_counts_json := daily_counts_json d;
         daily_total_messages_json := daily_total_messages_json d |}
  | SavePatternCounts name c =>
      {| processed_ids_json := processed_ids_json d;
         project_counts_json := project_counts_json d;
         daily_counts_json := <[name := c]> (daily_counts_json d);
         daily_total_messages_json := daily_total_messages_json d |}
  | SaveTotalMessagesCounts c =>
      {| processed_ids_json := processed_ids_json d;
         project_counts_json := project_counts_json d;
         daily_counts_json := daily_counts_json d;
         daily_total_messages_json := Some c |}
  | Print _ | UploadToApi _ _ _ _ _ => d
  end.

(** The store files after a trace of effects. *)
Definition disk_after (d : disk) (trace : list event) : disk := foldl write d trace.

Definition is_save (e : event) : bool :=
  match e with
  | Print _ | UploadToApi _ _ _ _ _ => false
  | _ => true
  end.

Definition is_upload (e : event) : bool :=
  match e with
  | UploadToApi _ _ _ _ _ => true
  | _ => false
  end.

(** ** Python helpers *)

(** Truth value of an optional string ([None] and [""] are false). *)
Definition truthy (o : option string) : bool :=
  match o with
  | Some s => negb (bool_decide (s = ""))
  | None => false
  end.

(** [a or b] on optional strings. *)
Definition py_or (a b : option string) : option string :=
  if truthy a then a else b.

(** [d[k] += 1], after [if k not in d: d[k] = 0] (or on a dict that has
    every key it is used with). *)
Definition incr (k : string) (d : gmap string Z) : gmap string Z :=
  <[k := default 0 (d !! k) + 1]> d.

(** [d.get(k, 0)] *)
Definition get0 (d : gmap string Z) (k : string) : Z := default 0 (d !! k).

(** [pattern_counts[name].get(date, 0)] *)
Definition count_at (pc : gmap string (gmap string Z)) (name date : string) : Z :=
  get0 (default ∅ (pc !! name)) date.

Section Engine.
Context `{claude_counter}.

(** ** Reading the log *)

(** [entry.get("uuid") or entry.get("requestId")], with [None] for a
    value that fails [if not msg_id]. *)
Definition entry_msg_id (e : entry) : option string :=
  let m := py_or (e_uuid e) (e_requestId e) in
  if truthy m then m else None.

(** The names of the patterns that find an occurrence in [text]: the
    keys of the [matched_patterns] dict of a text block. *)
Definition matched_patterns (text : string) : gset string :=
  dom (filter (λ kv, re_search kv.2 text = true) PATTERNS).

(** Modelled from the spec: [process_message_entry] of [claude_counter]
    is not among the sources.  Following the Log Source Reader and the
    Pattern Matcher of the specification: an entry of another role,
    without a message id (primary field first, then the secondary one)
    or without a usable timestamp gives no result; otherwise the result
    holds the id, the date bucket and every text segment, in order, with
    the set of pattern names that match it. *)
Definition process_message_entry (e : entry) : option result :=
  if bool_decide (e_type e = Some "assistant") then
    match entry_msg_id e, e_timestamp e with
    | Some m, TsDate d =>
        Some {| msg_id := m; date_str := d;
                text_blocks := (λ t, (t, matched_patterns t)) <$> e_texts e |}
    | _, _ => None
    end
  else None.

(** [json.loads(line)] then [process_message_entry], inside the
    handler that turns every exception into [continue]. *)
Definition read_line (l : line) : option result :=
  match l with
  | Unparsable => None
  | Parsed e => process_message_entry e
  end.

(** [project_dir.is_dir() and not project_dir.name.startswith(".")] *)
Definition is_project (p : project_dir) : bool :=
  is_dir p && negb (String.prefix "." (dir_name p)).

(** The three nested loops shared by the scans: over the project
    directories, over the [.jsonl] files of each, over the lines of
    each file.  [body] is given the display name of the project. *)
Definition scan {A : Type} (body : string → A → line → A)
    (projects : list project_dir) (a : A) : A :=
  foldl (λ a p,
           if is_project p then
             let project_name := get_project_display_name (dir_name p) in
             foldl (λ a jsonl_file, foldl (body project_name) a jsonl_file)
                   a (jsonl_files p)
           else a)
        a projects.

(** [message_patterns]: the union of the keys of every block. *)
Definition message_patterns (r : result) : gset string :=
  ⋃ (text_blocks r).*2.

(** [first_match_text]: the text of the first block that matched. *)
Definition first_match_text (r : result) : option string :=
  fst <$> head (filter (λ b, b.2 ≠ ∅) (text_blocks r)).

(** ** [backfill_today_total_messages] *)

(** The body of the loop over lines; the accumulator is
    [seen_message_ids]. *)
Definition total_line (seen_message_ids : gset string) (l : line) : gset string :=
  match l with
  | Unparsable => seen_message_ids
  | Parsed e =>
      if bool_decide (e_type e = Some "assistant") then
        match entry_msg_id e with
        | None => seen_message_ids
        | Some m =>
            match e_timestamp e with
            | TsDate d =>
                if bool_decide (d = get_utc_today ∧ m ∉ seen_message_ids)
                then {[m]} ∪ seen_message_ids
                else seen_message_ids
            | TsAbsent | TsInvalid => seen_message_ids
            end
        end
      else seen_message_ids
  end.

(** [root] is [None] when [CLAUDE_PROJECTS_BASE] does not exist,
    otherwise the directories [iterdir()] yields. *)
Definition backfill_today_total_messages (root : option (list project_dir))
  : Z * list event :=
  match root with
  | None => (0, [])
  | Some projects =>
      (Z.of_nat (size (scan (λ _, total_line) projects ∅)),
       [Print MsgBackfillingTotal])
  end.

(** ** [backfill_today_patterns] *)

(** The variables of the scan: the local [pattern_matches] and
    [seen_today], and the two objects of the caller it mutates. *)
Record backfill := {
  pattern_matches : gmap string Z;
  seen_today : gset string;
  bf_processed_ids : gset string;
  bf_project_counts : gmap string Z;
}.

(** The body of [for pattern_name in message_patterns]. *)
Definition backfill_pattern (project_name : string) (b : backfill)
    (pattern_name : string) : backfill :=
  {| pattern_matches := incr pattern_name (pattern_matches b);
     seen_today := seen_today b;
     bf_processed_ids := bf_processed_ids b;
     bf_project_counts :=
       if bool_decide (pattern_name = "absolutely")
       then incr project_name (bf_project_counts b)
       else bf_project_counts b |}.

(** The body of the loop over lines. *)
Definition backfill_line (project_name : string) (b : backfill) (l : line)
  : backfill :=
  match read_line l with
  | None => b
  | Some r =>
      if bool_decide (date_str r ≠ get_utc_today) then b
      else if bool_decide (msg_id r ∈ seen_today b) then b
      else
        foldl (backfill_pattern project_name)
              {| pattern_matches := pattern_matches b;
                 seen_today := {[msg_id r]} ∪ seen_today b;
                 bf_processed_ids := {[msg_id r]} ∪ bf_processed_ids b;
                 bf_project_counts := bf_project_counts b |}
              (elements (message_patterns r))
  end.

(** [{name: 0 for name in PATTERNS}] *)
Definition zero_counts : gmap string Z := (λ _, 0) <$> PATTERNS.

Definition backfill_init (processed_ids : gset string)
    (project_counts : gmap string Z) : backfill :=
  {| pattern_matches := zero_counts; seen_today := ∅;
     bf_processed_ids := processed_ids;
     bf_project_counts := project_counts |}.

(** The function returns [pattern_matches]; [processed_ids] and
    [project_counts] are updated in place, so the whole record is the
    outcome. *)
Definition backfill_today_patterns (root : option (list project_dir))
    (processed_ids : gset string) (project_counts : gmap string Z)
  : backfill * list event :=
  match root with
  | None => (backfill_init processed_ids project_counts, [])
  | Some projects =>
      (scan backfill_line projects (backfill_init processed_ids project_counts),
       [Print MsgBackfillingPatterns])
  end.

(** ** [main]: startup *)

(** [load_processed_ids], [load_project_counts],
    [{name: load_pattern_counts(name) for name in PATTERNS}] and
    [load_total_messages_counts]: a missing or undecodable file is the
    empty value. *)
Definition load (d : disk) : state :=
  {| processed_ids := default ∅ (processed_ids_json d);
     project_counts := default ∅ (project_counts_json d);
     pattern_counts :=
       map_imap (λ name _, Some (default ∅ (daily_counts_json d !! name))) PATTERNS;
     total_messages_counts := default ∅ (daily_total_messages_json d) |}.

(** The body of [for pattern_name, count in backfill_pattern_matches.items()]:
    the accumulator is [pattern_counts] and what has been saved and
    printed so far. *)
Definition store_backfill
    (acc : gmap string (gmap string Z) * list event) (item : string * Z)
  : gmap string (gmap string Z) * list event :=
  let '(pattern_name, count) := item in
  if bool_decide (0 < count) then
    let counts : gmap string Z :=
      <[get_utc_today := count]> (default ∅ (acc.1 !! pattern_name)) in
    (<[pattern_name := counts]> acc.1,
     acc.2 ++ [SavePatternCounts pattern_name counts;
               Print (MsgFoundPattern count pattern_name)])
  else acc.

(** [{name: counts.get(today_utc, 0) for name, counts in pattern_counts.items()}] *)
Definition today_patterns (s : state) : gmap string Z :=
  (λ counts, get0 counts get_utc_today) <$> pattern_counts s.

(** [total_messages_counts.get(today_utc, 0)] *)
Definition today_total (s : state) : Z :=
  get0 (total_messages_counts s) get_utc_today.

(** The upload of the startup; [upload_ok] is what [upload_to_api] returns. *)
Definition startup_upload (api_url api_secret : option string)
    (upload_ok : bool) (s : state) : list event :=
  if truthy api_url then
    [Print (MsgUploading (today_patterns s) (today_total s));
     UploadToApi (default "" api_url) api_secret get_utc_today
                 (today_patterns s) (today_total s);
     Print (if upload_ok then MsgUploadSuccessful else MsgUploadFailed)]
  else [].

(** What [main] has done when it reaches the test on the scan root:
    the state it holds, the command-line values, the effects so far,
    and whether the loop is entered. *)
Record started := {
  held : state;
  api_url : option string;
  api_secret : option string;
  effects : list event;
  enters_loop : bool;
}.

Definition startup (argv : list string) (d : disk)
    (root : option (list project_dir)) (upload_ok : bool) : started :=
  let '(url, secret) := Cli.parse_args SERVER_URL argv in
  let s0 := load d in
  (* backfill of the total message count *)
  let '(today_total_actual, out_total) := backfill_today_total_messages root in
  let total := <[get_utc_today := today_total_actual]> (total_messages_counts s0) in
  (* backfill of the pattern matches, on an emptied project_counts *)
  let '(b, out_patterns) := backfill_today_patterns root (processed_ids s0) ∅ in
  let '(pc, out_store) :=
    foldl store_backfill (pattern_counts s0, []) (map_to_list (pattern_matches b)) in
  let s := {| processed_ids := bf_processed_ids b;
              project_counts := bf_project_counts b;
              pattern_counts := pc;
              total_messages_counts := total |} in
  {| held := s; api_url := url; api_secret := secret;
     effects :=
       [Print (MsgBanner url)]
       ++ out_total
       ++ [SaveTotalMessagesCounts total; Print (MsgFoundTotal today_total_actual)]
       ++ out_patterns ++ out_store
       ++ [SaveProcessedIds (processed_ids s); SaveProjectCounts (project_counts s)]
       ++ startup_upload url secret upload_ok s
       ++ [Print MsgSeparator]
       ++ match root with
          | None => [Print MsgRootNotFound; Print MsgSetEnvironment]
          | Some _ => []
          end;
     enters_loop := bool_decide (is_Some root) |}.

(** ** [main]: one iteration of [while True] *)

(** The variables of one pass: the stores, [new_matches_by_pattern],
    [new_total_messages], and the notifications printed. *)
Record pass := {
  stores : state;
  new_matches_by_pattern : gmap string Z;
  new_total_messages : Z;
  notified : list event;
}.

(** The body of [for pattern_name in message_patterns]. *)
Definition steady_pattern (project_name date : string) (p : pass)
    (pattern_name : string) : pass :=
  let s := stores p in
  {| stores :=
       {| processed_ids := processed_ids s;
          project_counts :=
            if bool_decide (pattern_name = "absolutely")
            then incr project_name (project_counts s)
            else project_counts s;
          pattern_counts :=
            <[pattern_name := incr date (default ∅ (pattern_counts s !! pattern_name))]>
              (pattern_counts s);
          total_messages_counts := total_messages_counts s |};
     new_matches_by_pattern := incr pattern_name (new_matches_by_pattern p);
     new_total_messages := new_total_messages p;
     notified := notified p |}.

(** The body of the loop over lines. *)
Definition steady_line (project_name : string) (p : pass) (l : line) : pass :=
  match read_line l with
  | None => p
  | Some r =>
      let s := stores p in
      if bool_decide (msg_id r ∈ processed_ids s) then p
      else
        let counted :=
          {| stores :=
               {| processed_ids := {[msg_id r]} ∪ processed_ids s;
                  project_counts := project_counts s;
                  pattern_counts := pattern_counts s;
                  total_messages_counts := incr (date_str r) (total_messages_counts s) |};
             new_matches_by_pattern := new_matches_by_pattern p;
             new_total_messages := new_total_messages p + 1;
             notified := notified p |} in
        if bool_decide (message_patterns r = ∅) then counted
        else
          let q := foldl (steady_pattern project_name (date_str r)) counted
                         (elements (message_patterns r)) in
          {| stores := stores q;
             new_matches_by_pattern := new_matches_by_pattern q;
             new_total_messages := new_total_messages q;
             notified :=
               notified q ++ [Print (MsgMatch (message_patterns r) project_name
                                              (first_match_text r))] |}
  end.

Definition pass_init (s : state) : pass :=
  {| stores := s; new_matches_by_pattern := zero_counts;
     new_total_messages := 0; notified := [] |}.

(** The scan of one iteration. *)
Definition steady_scan (projects : list project_dir) (s : state) : pass :=
  scan steady_line projects (pass_init s).

(** [any(new_matches_by_pattern.values()) or new_total_messages > 0] *)
Definition found_new (p : pass) : bool :=
  bool_decide (map_Exists (λ _ count, count ≠ 0) (new_matches_by_pattern p))
  || bool_decide (0 < new_total_messages p).

(** The saves of the block "Save all state", in its order. *)
Definition save_all (s : state) : list event :=
  [SaveProjectCounts (project_counts s); SaveProcessedIds (processed_ids s)]
  ++ ((λ kv, SavePatternCounts kv.1 kv.2) <$> map_to_list (pattern_counts s))
  ++ [SaveTotalMessagesCounts (total_messages_counts s)].

(** The upload of a pass; a failure prints nothing here. *)
Definition pass_upload (url secret : option string) (upload_ok : bool)
    (s : state) : list event :=
  if truthy url then
    UploadToApi (default "" url) secret get_utc_today
                (today_patterns s) (today_total s)
    :: (if upload_ok then [Print (MsgUploaded (today_patterns s) (today_total s))]
        else [])
  else [].

(** What follows the scan in one iteration. *)
Definition report (url secret : option string) (upload_ok : bool) (p : pass)
  : list event :=
  if found_new p then
    save_all (stores p)
    ++ [Print (MsgUpdated (filter (λ kv, 0 < kv.2) (new_matches_by_pattern p))
                          (new_total_messages p))]
    ++ pass_upload url secret upload_ok (stores p)
  else [].

(** One iteration of the loop on the directories [iterdir()] yields in
    it: the stores after it and its effects. *)
Definition steady_pass (url secret : option string)
    (s : state) (turn : list project_dir * bool) : state * list event :=
  let p := steady_scan turn.1 s in
  (stores p, notified p ++ report url secret turn.2 p).

(** The iterations of the loop until the interrupt, each with the
    directories it finds and the outcome of its upload. *)
Definition steady_loop (url secret : option string)
    (turns : list (list project_dir * bool)) (s : state) : state * list event :=
  foldl (λ acc turn,
           let '(s', out) := steady_pass url secret acc.1 turn in
           (s', acc.2 ++ out))
        (s, []) turns.

(** [main] up to the interrupt: the stores it holds and every effect. *)
Definition main (argv : list string) (d : disk)
    (root : option (list project_dir)) (upload_ok : bool)
    (turns : list (list project_dir * bool)) : state * list event :=
  let m := startup argv d root upload_ok in
  if enters_loop m then
    let '(s, out) := steady_loop (api_url m) (api_secret m) turns (held m) in
    (s, effects m ++ out)
  else (held m, effects m).

(** ** [main]: the interrupt *)

(** [sum(counts.values())] *)
Definition sum_values (counts : gmap string Z) : Z :=
  map_fold (λ _ count total, count + total) 0 counts.

(** The total [main] prints for [name] when it is interrupted:
    [sum(pattern_counts[name].values())]. *)
Definition final_count (s : state) (name : string) : Z :=
  sum_values (default ∅ (pattern_counts s !! name)).

End Engine.

(* ===================================================================== *)
(** * Definitions used to state the properties *)
(* ===================================================================== *)

Section Counting.
Context `{claude_counter}.

(** The lines a scan visits, in its order, each with the display name
    of its project. *)
Definition scanned_lines (projects : list project_dir) : list (string * line) :=
  p ← filter (λ p, is_project p = true) projects;
  (λ l, (get_project_display_name (dir_name p), l)) <$> concat (jsonl_files p).

(** The results among them. *)
Definition results (ls : list (string * line)) : list (string * result) :=
  omap (λ x, (λ r, (x.1, r)) <$> read_line x.2) ls.

(** The specification's "exactly one contribution per message id": of a
    list of results, keep for each message id its first occurrence,
    leaving out the ids in [seen]. *)
Fixpoint once_per_id (seen : gset string) (rs : list (string * result))
  : list (string * result) :=
  match rs with
  | [] => []
  | x :: rs' =>
      if bool_decide (msg_id x.2 ∈ seen) then once_per_id seen rs'
      else x :: once_per_id ({[msg_id x.2]} ∪ seen) rs'
  end.

(** The results of the current UTC day. *)
Definition of_today (rs : list (string * result)) : list (string * result) :=
  filter (λ x, date_str x.2 = get_utc_today) rs.

(** How many of the messages [rs] are dated [date] and match [name]. *)
Definition matching (name date : string) (rs : list (string * result)) : Z :=
  Z.of_nat (length (filter (λ x, date_str x.2 = date ∧ name ∈ message_patterns x.2) rs)).

(** How many of the messages [rs] are dated [date]. *)
Definition dated (date : string) (rs : list (string * result)) : Z :=
  Z.of_nat (length (filter (λ x, date_str x.2 = date) rs)).

(** How many of the messages [rs] of project [project_name] match the
    pattern "absolutely". *)
Definition absolutely_in (project_name : string) (rs : list (string * result)) : Z :=
  Z.of_nat (length (filter (λ x, x.1 = project_name ∧ "absolutely" ∈ message_patterns x.2) rs)).

(** How many of the messages [rs] match [name], whatever their date. *)
Definition matching_any_date (name : string) (rs : list (string * result)) : Z :=
  Z.of_nat (length (filter (λ x, name ∈ message_patterns x.2) rs)).

Definition ids (rs : list (string * result)) : list string :=
  (λ x, msg_id x.2) <$> rs.

(** The message ids [backfill_today_total_messages] looks at: those of
    the assistant entries dated today. *)
Definition today_ids (ls : list (string * line)) : list string :=
  omap (λ x, match x.2 with
             | Parsed e =>
                 if bool_decide (e_type e = Some "assistant") then
                   match entry_msg_id e, e_timestamp e with
                   | Some m, TsDate d =>
                       if bool_decide (d = get_utc_today) then Some m else None
                   | _, _ => None
                   end
                 else None
             | Unparsable => None
             end) ls.

(** The messages the passes of one run count, pass after pass: each pass
    counts the results of its lines once per id, without the ids that
    were processed when it began, and marks them processed. *)
Fixpoint counted_by_passes (seen : gset string)
    (turns : list (list project_dir * bool)) : list (string * result) :=
  match turns with
  | [] => []
  | turn :: turns' =>
      let new := once_per_id seen (results (scanned_lines turn.1)) in
      new ++ counted_by_passes (list_to_set (ids new) ∪ seen) turns'
  end.

End Counting.

(* ===================================================================== *)
(** * A concrete configuration, for the examples *)
(* ===================================================================== *)

Module Example.

(** A literal search: [needle] occurs in [hay]. *)
Fixpoint contains (needle hay : string) : bool :=
  String.prefix needle hay ||
  match hay with
  | EmptyString => false
  | String _ hay' => contains needle hay'
  end.

(** Two tracked patterns, searched literally, on 2024-01-02. *)
Definition counter : claude_counter :=
  {| PATTERNS := {[ "absolutely" := "absolutely right"; "right" := "right" ]};
     SERVER_URL := None;
     get_utc_today := "2024-01-02";
     get_project_display_name := λ name, name;
     re_search := contains |}.

(** An assistant message. *)
Definition msg (uuid date : string) (texts : list string) : line :=
  Parsed {| e_type := Some "assistant"; e_uuid := Some uuid;
            e_requestId := None; e_timestamp := TsDate date;
            e_texts := texts |}.

Definition project (name : string) (files : list (list line)) : project_dir :=
  {| dir_name := name; is_dir := true; jsonl_files := files |}.

(** Stores of a previous run: 5 matches of "absolutely" recorded for
    today, and counts for one project. *)
Definition stale : disk :=
  {| processed_ids_json := Some {[ "m0" ]};
     project_counts_json := Some {[ "proj-a" := 7 ]};
     daily_counts_json := {[ "absolutely" := {[ "2024-01-02" := 5 ]} ]};
     daily_total_messages_json := Some {[ "2024-01-02" := 9 ]} |}.

(** Three messages of today match "absolutely". *)
Definition three_today : list project_dir :=
  [project "proj-a"
     [[msg "m1" "2024-01-02" ["you are absolutely right"];
       msg "m2" "2024-01-02" ["absolutely right again"];
       msg "m3" "2024-01-02" ["no match here"; "absolutely right"]]]].

(** The same log after one more matching message was appended. *)
Definition four_today : list project_dir :=
  [project "proj-a"
     [[msg "m1" "2024-01-02" ["you are absolutely right"];
       msg "m2" "2024-01-02" ["absolutely right again"];
       msg "m3" "2024-01-02" ["no match here"; "absolutely right"];
       msg "m4" "2024-01-02" ["absolutely right, once more"]]]].

(** A log of today without any match. *)
Definition none_today : list project_dir :=
  [project "proj-a" [[msg "m1" "2024-01-02" ["nothing to see"]]]].

(** A message with two blocks: both match "right", the first also
    "absolutely". *)
Definition both : line :=
  msg "m1" "2024-01-02" ["you are absolutely right"; "right again"].

(** What [process_message_entry] makes of it. *)
Definition both_result : result :=
  {| msg_id := "m1"; date_str := "2024-01-02";
     text_blocks :=
       (λ t, (t, matched_patterns (H := counter) t))
         <$> ["you are absolutely right"; "right again"] |}.

(** The variables of a pass that starts from the stale stores. *)
Definition fresh_pass : pass := pass_init (H := counter) (load (H := counter) stale).

(** A watcher that was restarted at seconds 0 to 4 and died again. *)
Definition five_restarts : Supervisor.WatcherProcess :=
  {| Supervisor.alive := false; Supervisor.restart_count := 5;
     Supervisor.restart_times := [0; 1; 2; 3; 4] |}.

(** A subprocess that dies right after every start: the turns of the
    monitoring loop at seconds 0 to 5 and at second 70. *)
Definition crash_loop : list (bool * Z) :=
  [(true, 0); (true, 1); (true, 2); (true, 3); (true, 4); (true, 5); (true, 70)].

(** The same configuration one day earlier, on 2024-01-01. *)
Definition day_before : claude_counter :=
  {| PATTERNS := {[ "absolutely" := "absolutely right"; "right" := "right" ]};
     SERVER_URL := None;
     get_utc_today := "2024-01-01";
     get_project_display_name := λ name, name;
     re_search := contains |}.

(** No store file exists yet. *)
Definition no_stores : disk :=
  {| processed_ids_json := None; project_counts_json := None;
     daily_counts_json := ∅; daily_total_messages_json := None |}.

(** One message of 2024-01-01 that matches "absolutely". *)
Definition old_message : list project_dir :=
  [project "proj-a" [[msg "m1" "2024-01-01" ["you are absolutely right"]]]].

(** One message id on two lines, dated 2024-01-01 and 2024-01-02. *)
Definition two_dates : list project_dir :=
  [project "proj-a"
     [[msg "m1" "2024-01-01" ["you are absolutely right"];
       msg "m1" "2024-01-02" ["you are absolutely right"]]]].

(** A run of the engine on 2024-01-01 from no stores, with one pass; the
    store files it leaves; and a run on 2024-01-02 over the same log
    that starts from these files. *)
Definition first_run (log : list project_dir) : state * list event :=
  main (H := day_before) ["watcher.py"] no_stores (Some log) false [(log, false)].

Definition files_after_first_run (log : list project_dir) : disk :=
  disk_after no_stores (first_run log).2.

Definition second_run (log : list project_dir) : state * list event :=
  main (H := counter) ["watcher.py"] (files_after_first_run log) (Some log) false
       [(log, false)].


End Example.

(* ===================================================================== *)
(** * Properties of the command line *)
(* ===================================================================== *)

Section CliProofs.
Import Cli.

Lemma scan_args_cons (a next : string) (rest : list string) (u s : option string) :
  a ≠ "--upload" →
  scan_args (a :: next :: rest) u s =
    scan_args (next :: rest) u (if bool_decide (a = "--secret") then Some next else s).
Proof.
  intros Ha. cbn [scan_args].
  rewrite (bool_decide_eq_false_2 _ Ha). by case_bool_decide.
Qed.

Lemma scan_args_other (a next : string) (rest : list string) (u s : option string) :
  a ≠ "--upload" → a ≠ "--secret" →
  scan_args (a :: next :: rest) u s = scan_args (next :: rest) u s.
Proof.
  intros Hu Hs. rewrite scan_args_cons by done.
  by rewrite (bool_decide_eq_false_2 _ Hs).
Qed.

Lemma scan_args_plain (l : list string) (u s : option string) :
  "--upload" ∉ l → "--secret" ∉ l →
  scan_args l u s = (u, s) ∧ scan_args (l ++ ["--upload"]) u s = (u, s).
Proof.
  induction l as [|a l IH]; intros Hu Hs; [done|].
  apply not_elem_of_cons in Hu as [Hau Hu].
  apply not_elem_of_cons in Hs as [Has Hs].
  destruct (IH Hu Hs) as [IH1 IH2].
  destruct l as [|b l]; cbn [app] in *.
  - split; [done|]. by rewrite scan_args_other.
  - by rewrite !scan_args_other.
Qed.

Lemma scan_args_upload (pre rest : list string) (url : string) (u s : option string) :
  "--upload" ∉ pre →
  scan_args (pre ++ "--upload" :: url :: rest) u s =
    (Some url,
     match rest with
     | x :: _ => if startswith_dashes x then (scan_args (pre ++ ["--upload"]) u s).2
                 else Some x
     | [] => (scan_args (pre ++ ["--upload"]) u s).2
     end).
Proof.
  revert s. induction pre as [|a pre IH]; intros s Hu.
  - cbn. destruct rest as [|x rest]; [done|]. by destruct (startswith_dashes x).
  - apply not_elem_of_cons in Hu as [Hau Hu].
    assert (Ha : a ≠ "--upload") by done.
    destruct pre as [|b pre]; cbn [app] in *.
    + rewrite (scan_args_cons a _ (url :: rest)), (scan_args_cons a _ []) by done.
      apply (IH _ Hu).
    + rewrite (scan_args_cons a b (pre ++ "--upload" :: url :: rest)),
              (scan_args_cons a b (pre ++ ["--upload"])) by done.
      apply (IH _ Hu).
Qed.

Lemma scan_args_secret (a tl : list string) (x : string) (u s : option string) :
  "--upload" ∉ a →
  scan_args (a ++ "--secret" :: x :: tl) u s = scan_args (x :: tl) u (Some x).
Proof.
  revert s. induction a as [|c a IH]; intros s Hu.
  - cbn [app]. by rewrite scan_args_cons.
  - apply not_elem_of_cons in Hu as [Hcu Hu].
    destruct a as [|d a]; cbn [app] in *; rewrite scan_args_cons by done; apply (IH _ Hu).
Qed.

(** C10.  In the command line of the engine, the first [--upload] that
    has a following value ends the scan of the arguments: the value is
    the URL; an argument right after it that does not start with [--] is
    the secret; whatever comes later, a [--secret s] included, is
    ignored, and the secret is then what the [--secret] options before
    [--upload] gave ([before]), unset when there is none.  A
    [--secret s] is honoured when it stands before [--upload], and when
    there is no [--upload] at all (the last one wins). *)
Theorem upload_ends_the_argument_scan
    (server_url : option string) (pre : list string) :
  "--upload" ∉ pre →
  let before := (parse_args server_url (pre ++ ["--upload"])).2 in
  (∀ url rest,
     parse_args server_url (pre ++ "--upload" :: url :: rest) =
       (Some url,
        match rest with
        | x :: _ => if startswith_dashes x then before else Some x
        | [] => before
        end))
  ∧ (∀ url secret rest,
       parse_args server_url (pre ++ "--upload" :: url :: "--secret" :: secret :: rest)
       = (Some url, before))
  ∧ ("--secret" ∉ pre → before = None)
  ∧ (∀ a secret b,
       pre = a ++ "--secret" :: secret :: b → "--secret" ∉ secret :: b →
       before = Some secret ∧ parse_args server_url pre = (server_url, Some secret)).
Proof.
  intros Hu before. unfold parse_args in *.
  assert (Hstop : ∀ url rest,
             scan_args (pre ++ "--upload" :: url :: rest) server_url None =
               (Some url,
                match rest with
                | x :: _ => if startswith_dashes x then before else Some x
                | [] => before
                end)).
  { intros url rest. by apply scan_args_upload. }
  split; [exact Hstop|]. split; [|split].
  - intros url secret rest. by rewrite Hstop.
  - intros Hs. subst before. by rewrite (proj2 (scan_args_plain pre _ _ Hu Hs)).
  - intros a secret b -> Hs.
    apply not_elem_of_app in Hu as [Hua Hu].
    apply not_elem_of_cons in Hu as [_ Hu].
    subst before. rewrite <- app_assoc. cbn [app].
    rewrite !scan_args_secret by done.
    change (secret :: b ++ ["--upload"]) with ((secret :: b) ++ ["--upload"]).
    by rewrite (proj1 (scan_args_plain (secret :: b) _ _ Hu Hs)),
               (proj2 (scan_args_plain (secret :: b) _ _ Hu Hs)).
Qed.

Lemma upload_ends_the_argument_scan_witness :
  ("--upload" ∉ ["watcher.py"; "--secret"; "s1"]) ∧
  parse_args (Some "http://default")
    (["watcher.py"; "--secret"; "s1"] ++ "--upload" :: "http://u" :: ["--secret"; "s2"])
  = (Some "http://u", Some "s1").
Proof.
  split.
  - intros Hin. by repeat (apply elem_of_cons in Hin as [Hin|Hin]; [done|]); inversion Hin.
  - assert (Hu : "--upload" ∉ ["watcher.py"; "--secret"; "s1"]).
    { intros Hin. by repeat (apply elem_of_cons in Hin as [Hin|Hin]; [done|]); inversion Hin. }
    exact (proj1 (proj2 (upload_ends_the_argument_scan (Some "http://default") _ Hu))
             "http://u" "s2" []).
Defined.
End CliProofs.

(* ===================================================================== *)
(** * Properties of the supervisor *)
(* ===================================================================== *)

Section SupervisorProofs.
Import Supervisor.

Lemma recent_subset (current_time t : Z) (times : list Z) :
  t ∈ recent current_time times → t ∈ times.
Proof. unfold recent. rewrite list_elem_of_filter. tauto. Qed.

Lemma recent_none (current_time : Z) (times : list Z) :
  (∀ t, t ∈ times → restart_window ≤ current_time - t) →
  recent current_time times = [].
Proof.
  intros Hold. unfold recent. induction times as [|t times IH]; [done|].
  rewrite filter_cons. case_decide as Ht.
  - specialize (Hold t (list_elem_of_here _ _)). lia.
  - apply IH. intros t' Ht'. apply Hold. by apply list_elem_of_further.
Qed.

(** What one check does to a dead instance.  It restarts it unless 5
    restarts lie within the 60 seconds before the check; in that case
    it does not restart it and only drops the older restart times: no
    field records that the check gave up.  So a later check, made once
    those restarts are 60 seconds old, restarts the instance. *)
Theorem restart_is_rate_limited (current_time : Z) (w : WatcherProcess) :
  alive w = false →
  let times := recent current_time (restart_times w) in
  let checked := check_and_restart current_time w in
  ((length times < 5)%nat →
     checked = (true, {| alive := true; restart_count := restart_count w + 1;
                         restart_times := times ++ [current_time] |}))
  ∧ ((5 ≤ length times)%nat →
       checked = (false, {| alive := false; restart_count := restart_count w;
                            restart_times := times |}))
  ∧ (∀ later,
       (5 ≤ length times)%nat →
       (∀ t, t ∈ restart_times w → restart_window ≤ later - t) →
       check_and_restart later checked.2
       = (true, {| alive := true; restart_count := restart_count w + 1;
                   restart_times := [later] |})).
Proof.
  intros Hdead times checked. subst checked. unfold check_and_restart.
  rewrite Hdead. fold times. unfold max_restarts.
  split; [|split].
  - intros Hlt. by rewrite bool_decide_eq_false_2 by lia.
  - intros Hge. by rewrite bool_decide_eq_true_2 by lia.
  - intros later Hge Hold. rewrite bool_decide_eq_true_2 by lia.
    cbn [snd alive restart_times restart_count].
    rewrite (recent_none later times).
    + by rewrite bool_decide_eq_false_2 by (cbn; lia).
    + intros t Ht. apply Hold. by apply (recent_subset current_time).
Qed.

Lemma restart_is_rate_limited_witness :
  alive Example.five_restarts = false
  ∧ check_and_restart 100 (check_and_restart 5 Example.five_restarts).2
    = (true, {| alive := true; restart_count := 6; restart_times := [100] |}).
Proof.
  split; [reflexivity|].
  apply (proj2 (proj2 (restart_is_rate_limited 5 Example.five_restarts eq_refl)) 100).
  - vm_compute. lia.
  - intros t Ht. unfold restart_window.
    repeat (apply elem_of_cons in Ht as [->|Ht]; [lia|]). inversion Ht.
Defined.

(** C8, the failing input: after five restarts at seconds 0 to 4 the
    check at second 5 gives up (the branch that prints "Giving up.",
    line 79), and the check at second 100 restarts the instance all the
    same.  The same happens in the monitoring loop of [main], which
    checks every watcher at every turn (line 174), from a freshly
    started watcher whose subprocess dies at seconds 0 to 5: it is dead
    after the turn of second 5 and alive again, restarted a sixth time,
    after the turn of second 100. *)
Lemma giving_up_is_not_permanent :
  (check_and_restart 5 Example.five_restarts).1 = false
  ∧ alive (check_and_restart 5 Example.five_restarts).2 = false
  ∧ (check_and_restart 100 (check_and_restart 5 Example.five_restarts).2).1 = true
  ∧ foldl monitor started
          [(true, 0); (true, 1); (true, 2); (true, 3); (true, 4); (true, 5)]
    = {| alive := false; restart_count := 5; restart_times := [0; 1; 2; 3; 4] |}
  ∧ foldl monitor started
          [(true, 0); (true, 1); (true, 2); (true, 3); (true, 4); (true, 5);
           (false, 6); (false, 100)]
    = {| alive := true; restart_count := 6; restart_times := [100] |}.
Proof. by vm_compute. Qed.

End SupervisorProofs.

(* ===================================================================== *)
(** * Properties of the engine: the scans *)
(* ===================================================================== *)

#[local] Set Warnings "-clear-no-such-hyp".

(** Case analysis on the tests of a goal about counters. *)
Ltac ite_cases :=
  repeat case_bool_decide; simplify_eq; try lia; try (exfalso; set_solver).

Section EngineProofs.
Context `{claude_counter}.

(** ** The scan as one loop over the lines *)

Lemma scan_files {A : Type} (body : string → A → line → A) (project_name : string)
    (files : list (list line)) (a : A) :
  foldl (λ a jsonl_file, foldl (body project_name) a jsonl_file) a files
  = foldl (λ a x, body x.1 a x.2) a ((λ l, (project_name, l)) <$> concat files).
Proof.
  revert a. induction files as [|f files IH]; intros a; [done|].
  cbn [foldl concat]. rewrite fmap_app, foldl_app, IH. f_equal.
  by rewrite foldl_fmap.
Qed.

Lemma scan_flatten {A : Type} (body : string → A → line → A)
    (projects : list project_dir) (a : A) :
  scan body projects a = foldl (λ a x, body x.1 a x.2) a (scanned_lines projects).
Proof.
  unfold scan, scanned_lines. revert a.
  induction projects as [|p projects IH]; intros a; [done|].
  cbn [foldl]. rewrite filter_cons. destruct (is_project p) eqn:Hp.
  - rewrite decide_True by done. rewrite bind_cons, foldl_app, IH.
    f_equal. apply scan_files.
  - rewrite decide_False by done. apply IH.
Qed.

(** ** Counters *)

Lemma get0_incr (k k' : string) (d : gmap string Z) :
  get0 (incr k d) k' = get0 d k' + (if bool_decide (k = k') then 1 else 0).
Proof.
  unfold get0, incr. case_bool_decide as Hk.
  - subst. by rewrite lookup_insert_eq.
  - rewrite lookup_insert_ne by done. lia.
Qed.

Lemma count_at_insert (pc : gmap string (gmap string Z)) (name name' date : string)
    (counts : gmap string Z) :
  count_at (<[name := counts]> pc) name' date
  = if bool_decide (name = name') then get0 counts date else count_at pc name' date.
Proof.
  unfold count_at. case_bool_decide as Hn.
  - subst. by rewrite lookup_insert_eq.
  - by rewrite lookup_insert_ne.
Qed.


Lemma b2z_and (P Q : Prop) `{Decision P, Decision Q} :
  (if bool_decide (P ∧ Q) then 1 else 0)
  = if bool_decide P then (if bool_decide Q then 1 else 0) else 0.
Proof. repeat case_bool_decide; tauto || done. Qed.

(** ** One message in the steady state *)

Lemma steady_patterns_counts (project_name date : string) (names : list string)
    (p : pass) :
  NoDup names →
  let q := foldl (steady_pattern project_name date) p names in
  processed_ids (stores q) = processed_ids (stores p)
  ∧ total_messages_counts (stores q) = total_messages_counts (stores p)
  ∧ new_total_messages q = new_total_messages p
  ∧ notified q = notified p
  ∧ (∀ name d,
       count_at (pattern_counts (stores q)) name d
       = count_at (pattern_counts (stores p)) name d
         + if bool_decide (date = d ∧ name ∈ names) then 1 else 0)
  ∧ (∀ pn,
       get0 (project_counts (stores q)) pn
       = get0 (project_counts (stores p)) pn
         + if bool_decide (project_name = pn ∧ "absolutely" ∈ names) then 1 else 0)
  ∧ (∀ name,
       get0 (new_matches_by_pattern q) name
       = get0 (new_matches_by_pattern p) name
         + if bool_decide (name ∈ names) then 1 else 0).
Proof.
  intros Hnd. revert p. induction Hnd as [|n names Hn Hnd IH]; intros p.
  - cbn. repeat split; try done; intros; ite_cases.
  - cbn [foldl]. specialize (IH (steady_pattern project_name date p n)).
    cbn zeta in IH. destruct IH as (-> & -> & -> & -> & Hpc & Hproj & Hnew).
    repeat split; try done.
    + intros name d. rewrite Hpc. cbn [steady_pattern stores pattern_counts].
      rewrite count_at_insert. destruct (decide (n = name)) as [->|Hne].
      * rewrite bool_decide_eq_true_2 by done. unfold count_at.
        rewrite get0_incr. ite_cases.
      * rewrite bool_decide_eq_false_2 by done. ite_cases.
    + intros pn. rewrite Hproj. cbn [steady_pattern stores project_counts].
      destruct (decide (n = "absolutely")) as [->|Hne].
      * rewrite bool_decide_eq_true_2 by done. rewrite get0_incr. ite_cases.
      * rewrite bool_decide_eq_false_2 by done. ite_cases.
    + intros name. rewrite Hnew. cbn [steady_pattern new_matches_by_pattern].
      rewrite get0_incr. ite_cases.
Qed.


Lemma steady_line_counts (project_name : string) (p : pass) (l : line) (r : result) :
  read_line l = Some r →
  msg_id r ∉ processed_ids (stores p) →
  let q := steady_line project_name p l in
  processed_ids (stores q) = {[msg_id r]} ∪ processed_ids (stores p)
  ∧ new_total_messages q = new_total_messages p + 1
  ∧ (∀ d,
       get0 (total_messages_counts (stores q)) d
       = get0 (total_messages_counts (stores p)) d
         + if bool_decide (date_str r = d) then 1 else 0)
  ∧ (∀ name d,
       count_at (pattern_counts (stores q)) name d
       = count_at (pattern_counts (stores p)) name d
         + if bool_decide (date_str r = d ∧ name ∈ message_patterns r) then 1 else 0)
  ∧ (∀ pn,
       get0 (project_counts (stores q)) pn
       = get0 (project_counts (stores p)) pn
         + if bool_decide (project_name = pn ∧ "absolutely" ∈ message_patterns r)
           then 1 else 0)
  ∧ (∀ name,
       get0 (new_matches_by_pattern q) name
       = get0 (new_matches_by_pattern p) name
         + if bool_decide (name ∈ message_patterns r) then 1 else 0).
Proof.
  intros Hread Hnew q. subst q. unfold steady_line. rewrite Hread.
  rewrite (bool_decide_eq_false_2 _ Hnew).
  case_bool_decide as Hempty.
  - cbn [stores processed_ids new_total_messages total_messages_counts
           pattern_counts project_counts new_matches_by_pattern].
    rewrite Hempty. repeat split; try done; intros; rewrite ?get0_incr; ite_cases.
  - match goal with
    | |- context [foldl ?f ?a ?names] =>
        destruct (steady_patterns_counts project_name (date_str r)
                    (elements (message_patterns r)) a (NoDup_elements _))
          as (Hids & Htotal & Hn & _ & Hpc & Hproj & Hm)
    end.
    cbn [stores processed_ids new_total_messages total_messages_counts
           pattern_counts project_counts new_matches_by_pattern] in *.
    rewrite Hids, Htotal, Hn. repeat split; try done.
    + intros d. by rewrite get0_incr.
    + intros name d. rewrite Hpc. f_equal. apply (f_equal (λ b : bool, if b then 1 else 0)).
      apply bool_decide_ext. by rewrite elem_of_elements.
    + intros pn. rewrite Hproj. f_equal. apply (f_equal (λ b : bool, if b then 1 else 0)).
      apply bool_decide_ext. by rewrite elem_of_elements.
    + intros name. rewrite Hm. f_equal. apply (f_equal (λ b : bool, if b then 1 else 0)).
      apply bool_decide_ext. by rewrite elem_of_elements.
Qed.

Lemma steady_line_skips (project_name : string) (p : pass) (l : line) :
  match read_line l with
  | None => True
  | Some r => msg_id r ∈ processed_ids (stores p)
  end →
  steady_line project_name p l = p.
Proof.
  unfold steady_line. destruct (read_line l) as [r|]; [|done].
  intros Hin. by rewrite (bool_decide_eq_true_2 _ Hin).
Qed.


(** ** Counting over a list of messages *)

Lemma dated_cons (d : string) (x : string * result) (rs : list (string * result)) :
  dated d (x :: rs) = (if bool_decide (date_str x.2 = d) then 1 else 0) + dated d rs.
Proof.
  unfold dated. rewrite filter_cons. case_decide; case_bool_decide; try done;
    cbn [length]; lia.
Qed.

Lemma matching_cons (name d : string) (x : string * result)
    (rs : list (string * result)) :
  matching name d (x :: rs)
  = (if bool_decide (date_str x.2 = d ∧ name ∈ message_patterns x.2) then 1 else 0)
    + matching name d rs.
Proof.
  unfold matching. rewrite filter_cons. case_decide; case_bool_decide; try done;
    cbn [length]; lia.
Qed.

Lemma absolutely_in_cons (pn : string) (x : string * result)
    (rs : list (string * result)) :
  absolutely_in pn (x :: rs)
  = (if bool_decide (x.1 = pn ∧ "absolutely" ∈ message_patterns x.2) then 1 else 0)
    + absolutely_in pn rs.
Proof.
  unfold absolutely_in. rewrite filter_cons. case_decide; case_bool_decide; try done;
    cbn [length]; lia.
Qed.

Lemma results_cons (x : string * line) (ls : list (string * line)) :
  results (x :: ls)
  = match read_line x.2 with
    | Some r => (x.1, r) :: results ls
    | None => results ls
    end.
Proof. unfold results. cbn [omap list_omap]. by destruct (read_line x.2). Qed.

(** ** A steady-state scan counts each new message id once *)

Lemma steady_fold (ls : list (string * line)) (p : pass) :
  let q := foldl (λ a x, steady_line x.1 a x.2) p ls in
  let new := once_per_id (processed_ids (stores p)) (results ls) in
  processed_ids (stores q) = list_to_set (ids new) ∪ processed_ids (stores p)
  ∧ new_total_messages q = new_total_messages p + Z.of_nat (length new)
  ∧ (∀ d,
       get0 (total_messages_counts (stores q)) d
       = get0 (total_messages_counts (stores p)) d + dated d new)
  ∧ (∀ name d,
       count_at (pattern_counts (stores q)) name d
       = count_at (pattern_counts (stores p)) name d + matching name d new)
  ∧ (∀ pn,
       get0 (project_counts (stores q)) pn
       = get0 (project_counts (stores p)) pn + absolutely_in pn new).
Proof.
  revert p. induction ls as [|x ls IH]; intros p.
  - unfold dated, matching, absolutely_in. cbn.
    repeat split; try done; try set_solver; intros; lia.
  - cbn [foldl]. rewrite results_cons.
    destruct (read_line x.2) as [r|] eqn:Hread.
    + cbn [once_per_id snd]. case_bool_decide as Hin.
      * rewrite steady_line_skips by (by rewrite Hread). apply IH.
      * destruct (steady_line_counts x.1 p x.2 r Hread Hin)
          as (Hids & Hn & Htotal & Hpc & Hproj & _).
        specialize (IH (steady_line x.1 p x.2)). cbn zeta in IH.
        rewrite Hids in IH. destruct IH as (IHids & IHn & IHtotal & IHpc & IHproj).
        repeat split.
        -- rewrite IHids. cbn [ids fmap list_fmap list_to_set snd]. set_solver.
        -- rewrite IHn, Hn. cbn [length]. lia.
        -- intros d. rewrite IHtotal, Htotal, dated_cons. cbn [snd]. lia.
        -- intros name d. rewrite IHpc, Hpc, matching_cons. cbn [snd]. lia.
        -- intros pn. rewrite IHproj, Hproj, absolutely_in_cons. cbn [fst snd]. lia.
    + rewrite steady_line_skips by (by rewrite Hread). apply IH.
Qed.


(** ** [once_per_id] keeps one message per id *)

Lemma elem_of_once_per_id (x : string * result) (seen : gset string)
    (rs : list (string * result)) :
  x ∈ once_per_id seen rs → x ∈ rs ∧ msg_id x.2 ∉ seen.
Proof.
  revert seen. induction rs as [|y rs IH]; intros seen; cbn [once_per_id].
  - by intros ?%not_elem_of_nil.
  - case_bool_decide as Hy.
    + intros [??]%IH. split; [by apply list_elem_of_further|done].
    + intros [->|[??]%IH]%elem_of_cons.
      * split; [apply list_elem_of_here|done].
      * split; [by apply list_elem_of_further|set_solver].
Qed.

Lemma elem_of_ids_once_per_id (m : string) (seen : gset string)
    (rs : list (string * result)) :
  m ∈ ids (once_per_id seen rs) ↔ (m ∉ seen) ∧ m ∈ ids rs.
Proof.
  revert seen. induction rs as [|y rs IH]; intros seen; cbn [once_per_id].
  - unfold ids. cbn. set_solver.
  - case_bool_decide as Hy.
    + rewrite IH. unfold ids. cbn [fmap list_fmap]. rewrite elem_of_cons.
      split; [tauto|]. intros [Hm [->|Hin]]; [done|tauto].
    + unfold ids in *. cbn [fmap list_fmap]. rewrite !elem_of_cons, IH.
      destruct (decide (m = msg_id y.2)) as [->|Hne]; [tauto|]. set_solver.
Qed.

Lemma NoDup_ids_once_per_id (seen : gset string) (rs : list (string * result)) :
  NoDup (ids (once_per_id seen rs)).
Proof.
  revert seen. induction rs as [|y rs IH]; intros seen; cbn [once_per_id].
  - constructor.
  - case_bool_decide as Hy; [apply IH|].
    unfold ids. cbn [fmap list_fmap]. constructor; [|apply IH].
    intros Hin. apply elem_of_ids_once_per_id in Hin. set_solver.
Qed.

(** ** The backfill scan counts each message id of today once *)

Lemma backfill_patterns_counts (project_name : string) (names : list string)
    (b : backfill) :
  NoDup names →
  let q := foldl (backfill_pattern project_name) b names in
  seen_today q = seen_today b
  ∧ bf_processed_ids q = bf_processed_ids b
  ∧ (∀ name,
       get0 (pattern_matches q) name
       = get0 (pattern_matches b) name + if bool_decide (name ∈ names) then 1 else 0)
  ∧ (∀ pn,
       get0 (bf_project_counts q) pn
       = get0 (bf_project_counts b) pn
         + if bool_decide (project_name = pn ∧ "absolutely" ∈ names) then 1 else 0).
Proof.
  intros Hnd. revert b. induction Hnd as [|n names Hn Hnd IH]; intros b.
  - cbn. repeat split; try done; intros; ite_cases.
  - cbn [foldl]. specialize (IH (backfill_pattern project_name b n)).
    cbn zeta in IH. destruct IH as (-> & -> & Hpm & Hproj).
    repeat split; try done.
    + intros name. rewrite Hpm. cbn [backfill_pattern pattern_matches].
      rewrite get0_incr. ite_cases.
    + intros pn. rewrite Hproj. cbn [backfill_pattern bf_project_counts].
      destruct (decide (n = "absolutely")) as [->|Hne].
      * rewrite bool_decide_eq_true_2 by done. rewrite get0_incr. ite_cases.
      * rewrite bool_decide_eq_false_2 by done. ite_cases.
Qed.

Lemma of_today_cons (x : string * result) (rs : list (string * result)) :
  of_today (x :: rs)
  = if bool_decide (date_str x.2 = get_utc_today) then x :: of_today rs
    else of_today rs.
Proof. unfold of_today. rewrite filter_cons. by case_decide; case_bool_decide. Qed.

Lemma backfill_line_skips (project_name : string) (b : backfill) (l : line) :
  match read_line l with
  | None => True
  | Some r => date_str r ≠ get_utc_today ∨ msg_id r ∈ seen_today b
  end →
  backfill_line project_name b l = b.
Proof.
  unfold backfill_line. destruct (read_line l) as [r|]; [|done].
  intros [Hd|Hin].
  - by rewrite (bool_decide_eq_true_2 _ Hd).
  - rewrite (bool_decide_eq_true_2 _ Hin). by case_bool_decide.
Qed.

Lemma backfill_line_counts (project_name : string) (b : backfill) (l : line)
    (r : result) :
  read_line l = Some r →
  date_str r = get_utc_today →
  msg_id r ∉ seen_today b →
  let q := backfill_line project_name b l in
  seen_today q = {[msg_id r]} ∪ seen_today b
  ∧ bf_processed_ids q = {[msg_id r]} ∪ bf_processed_ids b
  ∧ (∀ name,
       get0 (pattern_matches q) name
       = get0 (pattern_matches b) name
         + if bool_decide (name ∈ message_patterns r) then 1 else 0)
  ∧ (∀ pn,
       get0 (bf_project_counts q) pn
       = get0 (bf_project_counts b) pn
         + if bool_decide (project_name = pn ∧ "absolutely" ∈ message_patterns r)
           then 1 else 0).
Proof.
  intros Hread Hd Hnew q. subst q. unfold backfill_line. rewrite Hread.
  rewrite (bool_decide_eq_false_2 (date_str r ≠ get_utc_today)) by tauto.
  rewrite (bool_decide_eq_false_2 _ Hnew).
  match goal with
  | |- context [foldl (backfill_pattern ?pn) ?a ?names] =>
      destruct (backfill_patterns_counts pn names a (NoDup_elements _))
        as (Hseen & Hids & Hpm & Hproj)
  end.
  cbn [seen_today bf_processed_ids pattern_matches bf_project_counts] in *.
  rewrite Hseen, Hids. repeat split; try done.
  - intros name. rewrite Hpm. f_equal.
    apply (f_equal (λ c : bool, if c then 1 else 0)).
    apply bool_decide_ext. by rewrite elem_of_elements.
  - intros pn. rewrite Hproj. f_equal.
    apply (f_equal (λ c : bool, if c then 1 else 0)).
    apply bool_decide_ext. by rewrite elem_of_elements.
Qed.

Lemma backfill_fold (ls : list (string * line)) (b : backfill) :
  let q := foldl (λ a x, backfill_line x.1 a x.2) b ls in
  let counted := once_per_id (seen_today b) (of_today (results ls)) in
  seen_today q = list_to_set (ids counted) ∪ seen_today b
  ∧ bf_processed_ids q = list_to_set (ids counted) ∪ bf_processed_ids b
  ∧ (∀ name,
       get0 (pattern_matches q) name
       = get0 (pattern_matches b) name + matching name get_utc_today counted)
  ∧ (∀ pn,
       get0 (bf_project_counts q) pn
       = get0 (bf_project_counts b) pn + absolutely_in pn counted).
Proof.
  revert b. induction ls as [|x ls IH]; intros b.
  - unfold matching, absolutely_in. cbn.
    repeat split; try done; try set_solver; intros; lia.
  - cbn [foldl]. rewrite results_cons.
    destruct (read_line x.2) as [r|] eqn:Hread.
    2: { rewrite backfill_line_skips by (by rewrite Hread). apply IH. }
    rewrite of_today_cons. cbn [snd]. case_bool_decide as Hd.
    2: { rewrite backfill_line_skips by (rewrite Hread; by left). apply IH. }
    cbn [once_per_id snd]. case_bool_decide as Hin.
    { rewrite backfill_line_skips by (rewrite Hread; by right). apply IH. }
    destruct (backfill_line_counts x.1 b x.2 r Hread Hd Hin)
      as (Hseen & Hids & Hpm & Hproj).
    specialize (IH (backfill_line x.1 b x.2)). cbn zeta in IH.
    rewrite Hseen in IH. destruct IH as (IHseen & IHids & IHpm & IHproj).
    repeat split.
    + rewrite IHseen. cbn [ids fmap list_fmap list_to_set snd]. set_solver.
    + rewrite IHids, Hids. cbn [ids fmap list_fmap list_to_set snd]. set_solver.
    + intros name. rewrite IHpm, Hpm, matching_cons. cbn [snd].
      rewrite (b2z_and (date_str r = get_utc_today)), (bool_decide_eq_true_2 _ Hd). lia.
    + intros pn. rewrite IHproj, Hproj, absolutely_in_cons. cbn [fst snd]. lia.
Qed.


(** ** The backfill of the total counts distinct ids *)

Lemma total_fold (ls : list (string * line)) (seen : gset string) :
  foldl (λ a x, total_line a x.2) seen ls = list_to_set (today_ids ls) ∪ seen.
Proof.
  revert seen. induction ls as [|x ls IH]; intros seen.
  - cbn. set_solver.
  - cbn [foldl]. rewrite IH. unfold today_ids, total_line.
    cbn [omap list_omap]. destruct x.2 as [|e]; [done|].
    case_bool_decide; [|done].
    destruct (entry_msg_id e) as [m|]; [|done].
    destruct (e_timestamp e) as [| |d]; try done.
    destruct (decide (d = get_utc_today)) as [Hd|Hd].
    + rewrite (bool_decide_eq_true_2 _ Hd). cbn [list_to_set].
      case_bool_decide as Hc; [set_solver|].
      assert (m ∈ seen) by (destruct (decide (m ∈ seen)); [done|tauto]).
      set_solver.
    + rewrite (bool_decide_eq_false_2 _ Hd).
      rewrite bool_decide_eq_false_2 by tauto. done.
Qed.

(** ** Storing the backfilled totals *)

Lemma store_backfill_fold (items : list (string * Z))
    (acc : gmap string (gmap string Z) * list event) (name : string) :
  NoDup items.*1 →
  (foldl store_backfill acc items).1 !! name
  = match (list_to_map items : gmap string Z) !! name with
    | Some count =>
        if bool_decide (0 < count)
        then Some (<[get_utc_today := count]> (default ∅ (acc.1 !! name)))
        else acc.1 !! name
    | None => acc.1 !! name
    end.
Proof.
  revert acc. induction items as [|[k c] items IH]; intros acc Hnd; [done|].
  cbn [fmap list_fmap fst] in Hnd. apply NoDup_cons in Hnd as [Hk Hnd].
  cbn [foldl]. rewrite list_to_map_cons, IH by done.
  destruct (decide (k = name)) as [->|Hne].
  - rewrite lookup_insert_eq.
    rewrite (not_elem_of_list_to_map_1 items name) by done.
    unfold store_backfill. case_bool_decide; [|done].
    cbn [fst]. by rewrite lookup_insert_eq.
  - rewrite lookup_insert_ne by done.
    assert ((store_backfill acc (k, c)).1 !! name = acc.1 !! name) as ->; [|done].
    unfold store_backfill. case_bool_decide; [|done].
    cbn [fst]. by rewrite lookup_insert_ne.
Qed.

Lemma store_backfill_nothing (items : list (string * Z))
    (acc : gmap string (gmap string Z) * list event) :
  Forall (λ item, item.2 ≤ 0) items →
  foldl store_backfill acc items = acc.
Proof.
  induction 1 as [|[k c] items Hc _ IH]; [done|].
  cbn [foldl]. unfold store_backfill at 2.
  rewrite bool_decide_eq_false_2 by (cbn in Hc; lia). apply IH.
Qed.

End EngineProofs.

(* ===================================================================== *)
(** * Properties of the engine: startup and passes *)
(* ===================================================================== *)

Section PassProofs.
Context `{claude_counter}.

(** ** What [startup] leaves in the stores *)

Lemma startup_fields (argv : list string) (d : disk)
    (root : option (list project_dir)) (upload_ok : bool) :
  let b := (backfill_today_patterns root (processed_ids (load d)) ∅).1 in
  let m := startup argv d root upload_ok in
  processed_ids (held m) = bf_processed_ids b
  ∧ project_counts (held m) = bf_project_counts b
  ∧ pattern_counts (held m)
    = (foldl store_backfill (pattern_counts (load d), [])
             (map_to_list (pattern_matches b))).1
  ∧ total_messages_counts (held m)
    = <[get_utc_today := (backfill_today_total_messages root).1]>
        (total_messages_counts (load d))
  ∧ api_url m = (Cli.parse_args SERVER_URL argv).1
  ∧ api_secret m = (Cli.parse_args SERVER_URL argv).2
  ∧ enters_loop m = bool_decide (is_Some root).
Proof.
  intros b m. subst b m. unfold startup.
  destruct (Cli.parse_args SERVER_URL argv) as [url secret].
  destruct (backfill_today_total_messages root) as [n out_total].
  destruct (backfill_today_patterns root (processed_ids (load d)) ∅) as [b out_patterns].
  destruct (foldl store_backfill _ _) as [pc out_store]. done.
Qed.

Lemma get0_zero_counts (name : string) : get0 zero_counts name = 0.
Proof.
  unfold get0, zero_counts. rewrite lookup_fmap. by destruct (PATTERNS !! name).
Qed.

(** The messages the backfill counts: those of today, once per id. *)
Lemma backfill_counts (projects : list project_dir) (ids0 : gset string)
    (counts0 : gmap string Z) :
  let b := (backfill_today_patterns (Some projects) ids0 counts0).1 in
  let counted := once_per_id ∅ (of_today (results (scanned_lines projects))) in
  bf_processed_ids b = list_to_set (ids counted) ∪ ids0
  ∧ (∀ name, get0 (pattern_matches b) name = matching name get_utc_today counted)
  ∧ (∀ pn, get0 (bf_project_counts b) pn = get0 counts0 pn + absolutely_in pn counted).
Proof.
  intros b counted. subst b. cbn [backfill_today_patterns fst].
  rewrite scan_flatten.
  destruct (backfill_fold (scanned_lines projects) (backfill_init ids0 counts0))
    as (_ & Hids & Hpm & Hproj).
  cbn [backfill_init seen_today bf_processed_ids pattern_matches bf_project_counts] in *.
  repeat split; try done.
  intros name. rewrite Hpm, get0_zero_counts. fold counted. lia.
Qed.

Lemma startup_count_at (argv : list string) (d : disk)
    (root : option (list project_dir)) (upload_ok : bool) (name date : string) :
  let fresh :=
    get0 (pattern_matches (backfill_today_patterns root (processed_ids (load d)) ∅).1) name in
  count_at (pattern_counts (held (startup argv d root upload_ok))) name date
  = if bool_decide (date = get_utc_today ∧ 0 < fresh) then fresh
    else count_at (pattern_counts (load d)) name date.
Proof.
  intros fresh.
  destruct (startup_fields argv d root upload_ok) as (_ & _ & -> & _).
  unfold count_at at 1.
  rewrite store_backfill_fold by apply NoDup_fst_map_to_list.
  rewrite list_to_map_to_list. cbn [fst].
  assert (Hfresh : fresh
                   = default 0 (pattern_matches
                       (backfill_today_patterns root (processed_ids (load d)) ∅).1
                                !! name)) by done.
  clearbody fresh.
  destruct (pattern_matches _ !! name) as [c|]; cbn [default from_option id] in Hfresh; subst fresh.
  - destruct (decide (0 < c)) as [Hpos|Hpos].
    + rewrite (bool_decide_eq_true_2 (0 < c)) by done. cbn [default from_option id]. unfold get0.
      destruct (decide (date = get_utc_today)) as [->|Hne].
      * rewrite lookup_insert_eq. by rewrite bool_decide_eq_true_2.
      * rewrite lookup_insert_ne by done. by rewrite bool_decide_eq_false_2 by tauto.
    + rewrite (bool_decide_eq_false_2 (0 < c)) by done.
      by rewrite bool_decide_eq_false_2 by tauto.
  - by rewrite bool_decide_eq_false_2 by lia.
Qed.


(** ** One iteration of the loop *)

Lemma steady_scan_counts (projects : list project_dir) (s : state) :
  let q := steady_scan projects s in
  let new := once_per_id (processed_ids s) (results (scanned_lines projects)) in
  processed_ids (stores q) = list_to_set (ids new) ∪ processed_ids s
  ∧ new_total_messages q = Z.of_nat (length new)
  ∧ (∀ d,
       get0 (total_messages_counts (stores q)) d
       = get0 (total_messages_counts s) d + dated d new)
  ∧ (∀ name d,
       count_at (pattern_counts (stores q)) name d
       = count_at (pattern_counts s) name d + matching name d new)
  ∧ (∀ pn,
       get0 (project_counts (stores q)) pn
       = get0 (project_counts s) pn + absolutely_in pn new).
Proof.
  intros q new. subst q. unfold steady_scan. rewrite scan_flatten.
  destruct (steady_fold (scanned_lines projects) (pass_init s))
    as (Hids & Hn & Htotal & Hpc & Hproj).
  cbn [pass_init stores new_total_messages] in *. by rewrite Z.add_0_l in Hn.
Qed.

Lemma steady_loop_state (url secret : option string)
    (turns : list (list project_dir * bool)) (s : state) (out : list event) :
  (foldl (λ acc turn,
            let '(s', out) := steady_pass url secret acc.1 turn in
            (s', acc.2 ++ out))
         (s, out) turns).1
  = foldl (λ s turn, (steady_pass url secret s turn).1) s turns.
Proof.
  revert s out. induction turns as [|turn turns IH]; intros s out; [done|].
  cbn [foldl fst snd].
  destruct (steady_pass url secret s turn) as [s' out'] eqn:Hpass. apply IH.
Qed.

Lemma matching_none (name d : string) (rs : list (string * result)) :
  (∀ x, x ∈ rs → date_str x.2 ≠ d) → matching name d rs = 0 ∧ dated d rs = 0.
Proof.
  induction rs as [|x rs IH]; intros Hd; [done|].
  rewrite matching_cons, dated_cons.
  destruct IH as [-> ->].
  { intros y Hy. apply Hd. by apply list_elem_of_further. }
  specialize (Hd x (list_elem_of_here _ _)).
  rewrite !bool_decide_eq_false_2 by tauto. done.
Qed.

Lemma matching_nonneg (name d : string) (rs : list (string * result)) :
  0 ≤ matching name d rs.
Proof. unfold matching. lia. Qed.

(** Every message of today that the scan reads is in the processed-id
    set: what the backfill establishes, and what makes the passes that
    follow find nothing new for today. *)
Lemma pass_keeps_today (url secret : option string) (projects : list project_dir)
    (upload_ok : bool) (s : state) (name : string) :
  (∀ x, x ∈ results (scanned_lines projects) →
        date_str x.2 = get_utc_today → msg_id x.2 ∈ processed_ids s) →
  let s' := (steady_pass url secret s (projects, upload_ok)).1 in
  count_at (pattern_counts s') name get_utc_today
  = count_at (pattern_counts s) name get_utc_today
  ∧ get0 (total_messages_counts s') get_utc_today
    = get0 (total_messages_counts s) get_utc_today
  ∧ processed_ids s ⊆ processed_ids s'.
Proof.
  intros Hinv s'. subst s'. cbn [steady_pass fst].
  destruct (steady_scan_counts projects s) as (Hids & _ & Htotal & Hpc & _).
  rewrite Hids, Htotal, Hpc.
  destruct (matching_none name get_utc_today
              (once_per_id (processed_ids s) (results (scanned_lines projects))))
    as [-> ->].
  - intros x [Hx Hnew]%elem_of_once_per_id Hd. by apply Hnew, Hinv.
  - split; [lia|]. split; [lia|]. set_solver.
Qed.

End PassProofs.

(* ===================================================================== *)
(** * Properties of the engine: the counters *)
(* ===================================================================== *)

Section Counters.
Context `{claude_counter}.

(** C4.  A message that the steady-state loop has not processed yet adds
    exactly 1 to the total-message counter of its date, whatever it
    matches, and exactly 1 to the daily counter of each pattern that
    matches at least one of its text blocks; a pattern that matches in
    several blocks is still counted once, and two patterns that match
    get 1 each.  The backfill counts a message of today the same way. *)
Theorem message_counts_once_per_pattern
    (project_name : string) (p : pass) (l : line) (r : result) :
  read_line l = Some r →
  msg_id r ∉ processed_ids (stores p) →
  let q := steady_line project_name p l in
  (∀ name, name ∈ message_patterns r
           ↔ ∃ block, block ∈ text_blocks r ∧ name ∈ block.2)
  ∧ new_total_messages q = new_total_messages p + 1
  ∧ (∀ d,
       get0 (total_messages_counts (stores q)) d
       = get0 (total_messages_counts (stores p)) d
         + if bool_decide (date_str r = d) then 1 else 0)
  ∧ (∀ name d,
       count_at (pattern_counts (stores q)) name d
       = count_at (pattern_counts (stores p)) name d
         + if bool_decide (date_str r = d ∧ name ∈ message_patterns r) then 1 else 0)
  ∧ (∀ name1 name2,
       name1 ≠ name2 → name1 ∈ message_patterns r → name2 ∈ message_patterns r →
       count_at (pattern_counts (stores q)) name1 (date_str r)
       = count_at (pattern_counts (stores p)) name1 (date_str r) + 1
       ∧ count_at (pattern_counts (stores q)) name2 (date_str r)
         = count_at (pattern_counts (stores p)) name2 (date_str r) + 1
       ∧ get0 (total_messages_counts (stores q)) (date_str r)
         = get0 (total_messages_counts (stores p)) (date_str r) + 1)
  ∧ (∀ b name,
       date_str r = get_utc_today → msg_id r ∉ seen_today b →
       get0 (pattern_matches (backfill_line project_name b l)) name
       = get0 (pattern_matches b) name
         + if bool_decide (name ∈ message_patterns r) then 1 else 0).
Proof.
  intros Hread Hnew q.
  destruct (steady_line_counts project_name p l r Hread Hnew)
    as (_ & Hn & Htotal & Hpc & _).
  split; [|split; [exact Hn|split; [exact Htotal|split; [exact Hpc|split]]]].
  - intros name. unfold message_patterns. rewrite elem_of_union_list. split.
    + intros (X & [block [-> Hblock]]%list_elem_of_fmap & Hname). eauto.
    + intros (block & Hblock & Hname). exists block.2. split; [|done].
      apply list_elem_of_fmap. eauto.
  - intros name1 name2 _ H1 H2. subst q. rewrite !Hpc, Htotal.
    rewrite !bool_decide_eq_true_2 by done. done.
  - intros b name Hd Hseen.
    by destruct (backfill_line_counts project_name b l r Hread Hd Hseen)
      as (_ & _ & Hpm & _).
Qed.

(** One scan, from any stores.  The messages a steady-state scan counts
    are the results of the lines, once per message id (the first line of
    each id) and without the ids already processed: no id occurs twice
    among them, however many lines carry it, in one file or in several;
    the processed-id set grows by exactly their ids; and every counter
    (total per date, per pattern and date, per project) grows by the
    number of those messages that contribute to it.  The backfill counts
    the messages of today once per id in the same way, and the
    backfilled total is the number of distinct ids of today. *)
Theorem each_message_id_counts_once
    (projects : list project_dir) (s : state)
    (ids0 : gset string) (counts0 : gmap string Z) :
  let lines := scanned_lines projects in
  let q := steady_scan projects s in
  let new := once_per_id (processed_ids s) (results lines) in
  let b := (backfill_today_patterns (Some projects) ids0 counts0).1 in
  let today := once_per_id ∅ (of_today (results lines)) in
  (NoDup (ids new)
   ∧ (∀ m, m ∈ ids new ↔ (m ∉ processed_ids s) ∧ m ∈ ids (results lines))
   ∧ processed_ids (stores q) = list_to_set (ids new) ∪ processed_ids s
   ∧ new_total_messages q = Z.of_nat (length new)
   ∧ (∀ d, get0 (total_messages_counts (stores q)) d
           = get0 (total_messages_counts s) d + dated d new)
   ∧ (∀ name d, count_at (pattern_counts (stores q)) name d
                = count_at (pattern_counts s) name d + matching name d new)
   ∧ (∀ pn, get0 (project_counts (stores q)) pn
            = get0 (project_counts s) pn + absolutely_in pn new))
  ∧ (NoDup (ids today)
     ∧ (∀ m, m ∈ ids today ↔ m ∈ ids (of_today (results lines)))
     ∧ bf_processed_ids b = list_to_set (ids today) ∪ ids0
     ∧ (∀ name, get0 (pattern_matches b) name = matching name get_utc_today today)
     ∧ (∀ pn, get0 (bf_project_counts b) pn
              = get0 counts0 pn + absolutely_in pn today))
  ∧ (backfill_today_total_messages (Some projects)).1
    = Z.of_nat (size (list_to_set (today_ids lines) : gset string)).
Proof.
  intros lines q new b today. split; [|split].
  - split; [apply NoDup_ids_once_per_id|].
    split; [intros m; apply elem_of_ids_once_per_id|].
    apply steady_scan_counts.
  - split; [apply NoDup_ids_once_per_id|].
    split.
    { intros m. subst today. rewrite elem_of_ids_once_per_id. set_solver. }
    apply backfill_counts.
  - cbn [backfill_today_total_messages fst]. rewrite scan_flatten.
    rewrite (total_fold (scanned_lines projects) ∅). fold lines.
    by rewrite (right_id_L ∅ (∪)).
Qed.


(** ** The run *)

Lemma main_state (argv : list string) (d : disk) (root : option (list project_dir))
    (upload_ok : bool) (turns : list (list project_dir * bool)) :
  let m := startup argv d root upload_ok in
  (main argv d root upload_ok turns).1
  = if enters_loop m
    then foldl (λ s turn, (steady_pass (api_url m) (api_secret m) s turn).1)
               (held m) turns
    else held m.
Proof.
  intros m. unfold main. fold m. destruct (enters_loop m); [|done].
  unfold steady_loop. destruct (foldl _ _ _) as [s out] eqn:Hfold.
  apply (f_equal fst) in Hfold. by rewrite steady_loop_state in Hfold.
Qed.

Lemma ids_app (rs1 rs2 : list (string * result)) :
  ids (rs1 ++ rs2) = ids rs1 ++ ids rs2.
Proof. unfold ids. by rewrite fmap_app. Qed.

Lemma matching_app (name date : string) (rs1 rs2 : list (string * result)) :
  matching name date (rs1 ++ rs2) = matching name date rs1 + matching name date rs2.
Proof. unfold matching. rewrite filter_app, length_app. lia. Qed.

Lemma dated_app (date : string) (rs1 rs2 : list (string * result)) :
  dated date (rs1 ++ rs2) = dated date rs1 + dated date rs2.
Proof. unfold dated. rewrite filter_app, length_app. lia. Qed.

Lemma absolutely_in_app (pn : string) (rs1 rs2 : list (string * result)) :
  absolutely_in pn (rs1 ++ rs2) = absolutely_in pn rs1 + absolutely_in pn rs2.
Proof. unfold absolutely_in. rewrite filter_app, length_app. lia. Qed.

Lemma passes_count_once (url secret : option string)
    (turns : list (list project_dir * bool)) (s : state) :
  let final := foldl (λ s turn, (steady_pass url secret s turn).1) s turns in
  let later := counted_by_passes (processed_ids s) turns in
  NoDup (ids later)
  ∧ (∀ m, m ∈ ids later → m ∉ processed_ids s)
  ∧ processed_ids final = list_to_set (ids later) ∪ processed_ids s
  ∧ (∀ d, get0 (total_messages_counts final) d
          = get0 (total_messages_counts s) d + dated d later)
  ∧ (∀ name d, count_at (pattern_counts final) name d
               = count_at (pattern_counts s) name d + matching name d later)
  ∧ (∀ pn, get0 (project_counts final) pn
           = get0 (project_counts s) pn + absolutely_in pn later).
Proof.
  revert s. induction turns as [|turn turns IH]; intros s; cbn zeta.
  - cbn [foldl counted_by_passes]. split; [constructor|].
    split; [intros m Hm; inversion Hm|].
    split; [set_solver|].
    unfold dated, matching, absolutely_in. cbn.
    repeat split; intros; lia.
  - cbn [foldl counted_by_passes].
    change (steady_pass url secret s turn).1 with (stores (steady_scan turn.1 s)).
    destruct (steady_scan_counts turn.1 s) as (Hids & _ & Htotal & Hpc & Hproj).
    cbn zeta in Hids, Htotal, Hpc, Hproj.
    set (new := once_per_id (processed_ids s) (results (scanned_lines turn.1))) in *.
    specialize (IH (stores (steady_scan turn.1 s))). cbn zeta in IH.
    rewrite Hids in IH.
    destruct IH as (Hnd & Hfresh & Hfinal & Htotal' & Hpc' & Hproj').
    set (later := counted_by_passes (list_to_set (ids new) ∪ processed_ids s) turns) in *.
    rewrite ids_app.
    split.
    { apply NoDup_app. split; [apply NoDup_ids_once_per_id|]. split; [|done].
      intros m Hm Hm'. apply Hfresh in Hm'. set_solver. }
    split.
    { intros m [Hm|Hm]%elem_of_app.
      - by apply elem_of_ids_once_per_id in Hm as [? _].
      - apply Hfresh in Hm. set_solver. }
    split; [rewrite Hfinal; set_solver|].
    split; [intros d; rewrite Htotal', Htotal, dated_app; lia|].
    split; [intros name d; rewrite Hpc', Hpc, matching_app; lia|].
    intros pn. rewrite Hproj', Hproj, absolutely_in_app. lia.
Qed.

(** C2, within one run.  From the startup to the last pass of a run, no
    message id is counted twice, however many lines carry it, in one
    file or in several: the ids the backfill counts (those with a line
    dated today, each once) and the ids the passes count (each once, in
    the first pass that meets it unprocessed) are all distinct, and no
    pass counts an id that a previous run left in the processed-id set.
    The processed-id set grows by exactly these ids.  The stored value
    of today for a pattern is set to the number of backfilled messages
    that match it when that number is positive, the total of today to
    the number of distinct ids of today; the passes then add to every
    per-pattern and total counter the number of their messages that
    contribute to it; and the per-project counts, reset at startup, are
    the contributions of this run alone. *)
Theorem each_message_id_counts_once_in_a_run
    (argv : list string) (d : disk) (projects : list project_dir)
    (upload_ok : bool) (turns : list (list project_dir * bool)) :
  let lines := scanned_lines projects in
  let m := startup argv d (Some projects) upload_ok in
  let final := (main argv d (Some projects) upload_ok turns).1 in
  let today := once_per_id ∅ (of_today (results lines)) in
  let later := counted_by_passes (processed_ids (held m)) turns in
  NoDup (ids today ++ ids later)
  ∧ (∀ id, id ∈ ids today ↔ id ∈ ids (of_today (results lines)))
  ∧ (∀ id, id ∈ ids later → id ∉ processed_ids (load d))
  ∧ processed_ids final
    = list_to_set (ids today ++ ids later) ∪ processed_ids (load d)
  ∧ (∀ name,
       count_at (pattern_counts (held m)) name get_utc_today
       = if bool_decide (0 < matching name get_utc_today today)
         then matching name get_utc_today today
         else count_at (pattern_counts (load d)) name get_utc_today)
  ∧ (∀ name date,
       count_at (pattern_counts final) name date
       = count_at (pattern_counts (held m)) name date + matching name date later)
  ∧ get0 (total_messages_counts (held m)) get_utc_today
    = Z.of_nat (size (list_to_set (today_ids lines) : gset string))
  ∧ (∀ date,
       get0 (total_messages_counts final) date
       = get0 (total_messages_counts (held m)) date + dated date later)
  ∧ (∀ pn,
       get0 (project_counts final) pn
       = absolutely_in pn today + absolutely_in pn later).
Proof.
  intros lines m final today later.
  destruct (startup_fields argv d (Some projects) upload_ok)
    as (Hids & Hproj & _ & Htotal & _ & _ & Hloop).
  cbn zeta in Hids, Hproj, Htotal, Hloop. fold m in Hids, Hproj, Htotal, Hloop.
  destruct (backfill_counts projects (processed_ids (load d)) ∅)
    as (Hbids & Hbpc & Hbproj).
  cbn zeta in Hbids, Hbpc, Hbproj. fold lines today in Hbids, Hbpc, Hbproj.
  assert (Hfinal : final
    = foldl (λ s turn, (steady_pass (api_url m) (api_secret m) s turn).1)
            (held m) turns).
  { subst final. rewrite main_state. fold m. by rewrite Hloop. }
  destruct (passes_count_once (api_url m) (api_secret m) turns (held m))
    as (Hnd & Hfresh & Hp & Ht & Hpc & Hpr).
  cbn zeta in Hnd, Hfresh, Hp, Ht, Hpc, Hpr.
  fold later in Hnd, Hfresh, Hp, Ht, Hpc, Hpr. rewrite <- Hfinal in Hp, Ht, Hpc, Hpr.
  rewrite Hids, Hbids in Hfresh, Hp.
  split.
  { apply NoDup_app. split; [apply NoDup_ids_once_per_id|]. split; [|done].
    intros id Hid Hid'. apply Hfresh in Hid'. set_solver. }
  split.
  { intros id. subst today. rewrite elem_of_ids_once_per_id. set_solver. }
  split; [intros id Hid; apply Hfresh in Hid; set_solver|].
  split; [rewrite Hp, list_to_set_app_L; set_solver|].
  split.
  { intros name. subst m. rewrite startup_count_at. cbn zeta. rewrite Hbpc.
    apply (f_equal (λ c : bool, if c then _ else _)).
    apply bool_decide_ext. tauto. }
  split; [done|].
  split.
  { rewrite Htotal. unfold get0. rewrite lookup_insert_eq. cbn.
    cbn [backfill_today_total_messages fst]. rewrite scan_flatten.
    rewrite (total_fold (scanned_lines projects) ∅). fold lines.
    by rewrite (right_id_L ∅ (∪)). }
  split; [done|].
  intros pn. rewrite Hpr, Hproj, Hbproj. unfold get0 at 1. by rewrite lookup_empty.
Qed.
Lemma passes_keep_today (url secret : option string) (projects : list project_dir)
    (uploads : list bool) (s : state) (name : string) :
  (∀ x, x ∈ results (scanned_lines projects) →
        date_str x.2 = get_utc_today → msg_id x.2 ∈ processed_ids s) →
  let s' := foldl (λ s turn, (steady_pass url secret s turn).1) s
                  ((λ ok, (projects, ok)) <$> uploads) in
  count_at (pattern_counts s') name get_utc_today
  = count_at (pattern_counts s) name get_utc_today
  ∧ get0 (total_messages_counts s') get_utc_today
    = get0 (total_messages_counts s) get_utc_today.
Proof.
  revert s. induction uploads as [|ok uploads IH]; intros s Hinv; [done|].
  cbn [fmap list_fmap foldl].
  destruct (pass_keeps_today url secret projects ok s name Hinv)
    as (Hpc & Htotal & Hsub).
  destruct (IH (steady_pass url secret s (projects, ok)).1) as [-> ->]; [|done].
  intros x Hx Hd. apply Hsub. by apply Hinv.
Qed.

(** The overwrite at startup (lines 252-255), with its guard
    [if count > 0].  After the startup backfill the stored value of
    today for a pattern is the freshly computed total (the messages of
    today that match it, once per id) when that total is positive,
    whatever was stored before: overwritten, not added to.  When the
    fresh total is 0 the guard skips the assignment and the stored value
    stays.  A steady-state pass then adds to the stored value the number
    of new messages of today that match. *)
Theorem backfill_overwrites_positive_totals
    (argv : list string) (d : disk) (projects : list project_dir)
    (upload_ok : bool) (name : string) :
  let fresh :=
    get0 (pattern_matches
            (backfill_today_patterns (Some projects) (processed_ids (load d)) ∅).1)
         name in
  let m := startup argv d (Some projects) upload_ok in
  fresh = matching name get_utc_today
            (once_per_id ∅ (of_today (results (scanned_lines projects))))
  ∧ count_at (pattern_counts (held m)) name get_utc_today
    = (if bool_decide (0 < fresh) then fresh
       else count_at (pattern_counts (load d)) name get_utc_today)
  ∧ (∀ turn,
       count_at (pattern_counts (steady_pass (api_url m) (api_secret m) (held m) turn).1)
                name get_utc_today
       = count_at (pattern_counts (held m)) name get_utc_today
         + matching name get_utc_today
             (once_per_id (processed_ids (held m)) (results (scanned_lines turn.1)))).
Proof.
  intros fresh m. split; [|split].
  - subst fresh.
    by destruct (backfill_counts projects (processed_ids (load d)) ∅) as (_ & -> & _).
  - subst m. rewrite startup_count_at. fold fresh.
    apply (f_equal (λ c : bool, if c then _ else _)).
    apply bool_decide_ext. tauto.
  - intros turn. cbn [steady_pass fst].
    by destruct (steady_scan_counts turn.1 (held m)) as (_ & _ & _ & -> & _).
Qed.

(** C3.  After the backfill, any number of steady-state passes over the
    same log lines leaves the counters of today as the backfill set
    them: every message of today is in the processed-id set, so the
    passes find nothing new for today. *)
Theorem passes_after_backfill_keep_today
    (argv : list string) (d : disk) (projects : list project_dir)
    (upload_ok : bool) (uploads : list bool) (name : string) :
  let m := startup argv d (Some projects) upload_ok in
  let after := (main argv d (Some projects) upload_ok
                     ((λ ok, (projects, ok)) <$> uploads)).1 in
  count_at (pattern_counts after) name get_utc_today
  = count_at (pattern_counts (held m)) name get_utc_today
  ∧ get0 (total_messages_counts after) get_utc_today
    = get0 (total_messages_counts (held m)) get_utc_today
  ∧ (∀ x, x ∈ results (scanned_lines projects) →
          date_str x.2 = get_utc_today → msg_id x.2 ∈ processed_ids (held m)).
Proof.
  intros m after.
  assert (Hinv : ∀ x, x ∈ results (scanned_lines projects) →
                      date_str x.2 = get_utc_today →
                      msg_id x.2 ∈ processed_ids (held m)).
  { intros x Hx Hd. subst m.
    destruct (startup_fields argv d (Some projects) upload_ok) as (-> & _).
    destruct (backfill_counts projects (processed_ids (load d)) ∅) as (-> & _).
    apply elem_of_union_l, elem_of_list_to_set, elem_of_ids_once_per_id.
    split; [set_solver|]. unfold ids, of_today. apply list_elem_of_fmap.
    exists x. split; [done|]. by apply list_elem_of_filter. }
  subst after. rewrite main_state. fold m.
  destruct (startup_fields argv d (Some projects) upload_ok)
    as (_ & _ & _ & _ & _ & _ & Hloop).
  fold m in Hloop. rewrite Hloop, bool_decide_eq_true_2 by eauto.
  destruct (passes_keep_today (api_url m) (api_secret m) projects uploads
              (held m) name Hinv) as [Hpc Htotal].
  done.
Qed.

(** C5.  A steady-state pass never lowers a stored daily count, for any
    pattern and any date, today included; the startup changes no count
    of a date other than today.  So the count of a date other than
    today never decreases during the run, and the count of today is
    rewritten only by the startup backfill, before the first pass, and
    only grows afterwards. *)
Theorem daily_counts_never_decrease
    (argv : list string) (d : disk) (root : option (list project_dir))
    (upload_ok : bool) (name date : string) :
  date ≠ get_utc_today →
  let m := startup argv d root upload_ok in
  count_at (pattern_counts (held m)) name date
  = count_at (pattern_counts (load d)) name date
  ∧ (∀ turns, count_at (pattern_counts (load d)) name date
              ≤ count_at (pattern_counts (main argv d root upload_ok turns).1) name date)
  ∧ (∀ day turns more,
       count_at (pattern_counts (main argv d root upload_ok turns).1) name day
       ≤ count_at (pattern_counts (main argv d root upload_ok (turns ++ more)).1)
                  name day)
  ∧ (∀ day url secret s turn,
       count_at (pattern_counts s) name day
       ≤ count_at (pattern_counts (steady_pass url secret s turn).1) name day).
Proof.
  intros Hdate m.
  assert (Hpass : ∀ day url secret s turn,
             count_at (pattern_counts s) name day
             ≤ count_at (pattern_counts (steady_pass url secret s turn).1) name day).
  { intros day url secret s turn. cbn [steady_pass fst].
    destruct (steady_scan_counts turn.1 s) as (_ & _ & _ & -> & _).
    pose proof (matching_nonneg name day
                  (once_per_id (processed_ids s) (results (scanned_lines turn.1)))).
    lia. }
  assert (Hloop : ∀ day url secret turns s,
             count_at (pattern_counts s) name day
             ≤ count_at (pattern_counts
                           (foldl (λ s turn, (steady_pass url secret s turn).1) s turns))
                        name day).
  { intros day url secret turns. induction turns as [|turn turns IH]; intros s; [done|].
    cbn [foldl]. etransitivity; [apply (Hpass day url secret s turn)|apply IH]. }
  pose proof (main_state argv d root upload_ok) as Hmain. cbn zeta in Hmain.
  fold m in Hmain.
  assert (Hstart : count_at (pattern_counts (held m)) name date
                   = count_at (pattern_counts (load d)) name date).
  { subst m. rewrite startup_count_at. by rewrite bool_decide_eq_false_2 by tauto. }
  split; [exact Hstart|]. split; [|split; [|exact Hpass]].
  - intros turns. rewrite Hmain, <- Hstart. destruct (enters_loop m); [apply Hloop|done].
  - intros day turns more. rewrite !Hmain. destruct (enters_loop m); [|done].
    rewrite foldl_app. apply Hloop.
Qed.

End Counters.

(* ===================================================================== *)
(** * Properties of the engine: unparsable lines and a missing root *)
(* ===================================================================== *)

Section Robustness.
Context `{claude_counter}.

(** ** Unparsable lines *)



(** ** A missing scan root *)

Lemma store_zero_counts (acc : gmap string (gmap string Z) * list event) :
  foldl store_backfill acc (map_to_list zero_counts) = acc.
Proof.
  apply store_backfill_nothing, Forall_forall. intros [k c] Hin.
  apply elem_of_map_to_list in Hin. unfold zero_counts in Hin.
  rewrite lookup_fmap in Hin. destruct (PATTERNS !! k); cbn in *; [|done].
  injection Hin as <-. done.
Qed.

(** C6, as the code has it.  When the scan root does not exist, the
    startup scans nothing, prints the error and the loop is not entered;
    but before that it has written three store files: the total-message
    counts with the value of today set to 0, the processed ids as they
    were loaded, and the project counts emptied.  No per-pattern file is
    written and the per-pattern counts are kept as loaded. *)
Theorem missing_root_stops_before_the_loop
    (argv : list string) (d : disk) (upload_ok : bool) :
  let m := startup argv d None upload_ok in
  enters_loop m = false
  ∧ (∀ turns, main argv d None upload_ok turns = (held m, effects m))
  ∧ Print MsgRootNotFound ∈ effects m
  ∧ held m = {| processed_ids := processed_ids (load d);
                project_counts := ∅;
                pattern_counts := pattern_counts (load d);
                total_messages_counts :=
                  <[get_utc_today := 0]> (total_messages_counts (load d)) |}
  ∧ filter (λ e, is_save e = true) (effects m)
    = [SaveTotalMessagesCounts (<[get_utc_today := 0]> (total_messages_counts (load d)));
       SaveProcessedIds (processed_ids (load d));
       SaveProjectCounts ∅].
Proof.
  intros m.
  assert (Hm : m = {| held := {| processed_ids := processed_ids (load d);
                                 project_counts := ∅;
                                 pattern_counts := pattern_counts (load d);
                                 total_messages_counts :=
                                   <[get_utc_today := 0]> (total_messages_counts (load d)) |};
                      api_url := api_url m; api_secret := api_secret m;
                      effects := effects m; enters_loop := false |}
               ∧ filter (λ e, is_save e = true) (effects m)
                 = [SaveTotalMessagesCounts
                      (<[get_utc_today := 0]> (total_messages_counts (load d)));
                    SaveProcessedIds (processed_ids (load d));
                    SaveProjectCounts ∅]
               ∧ Print MsgRootNotFound ∈ effects m).
  { subst m. unfold startup.
    destruct (Cli.parse_args SERVER_URL argv) as [url secret].
    cbn [backfill_today_total_messages backfill_today_patterns backfill_init
           pattern_matches bf_processed_ids bf_project_counts].
    rewrite store_zero_counts.
    cbn [held api_url api_secret effects enters_loop processed_ids project_counts].
    split; [|split].
    - reflexivity.
    - unfold startup_upload. destruct (truthy url); reflexivity.
    - unfold startup_upload. destruct (truthy url); cbn;
        repeat (first [apply list_elem_of_here | apply list_elem_of_further]). }
  destruct Hm as (Hm & Hsaves & Hprint).
  assert (Hloop : enters_loop m = false) by (by rewrite Hm).
  split; [exact Hloop|]. split; [|split; [exact Hprint|split; [by rewrite Hm|exact Hsaves]]].
  intros turns. unfold main. fold m. by rewrite Hloop.
Qed.

End Robustness.

(* ===================================================================== *)
(** * Properties of the engine: saving and uploading *)
(* ===================================================================== *)

Section Persistence.
Context `{claude_counter}.

(** ** The trace of a pass *)

Lemma steady_patterns_notified (project_name date : string) (names : list string)
    (p : pass) :
  notified (foldl (steady_pattern project_name date) p names) = notified p.
Proof. revert p. induction names as [|n names IH]; intros p; [done|]. cbn [foldl]. by rewrite IH. Qed.

Lemma steady_line_notified (project_name : string) (p : pass) (l : line) :
  ∃ m, notified (steady_line project_name p l) = notified p
       ∨ notified (steady_line project_name p l) = notified p ++ [Print m].
Proof.
  exists (match read_line l with
          | Some r => MsgMatch (message_patterns r) project_name (first_match_text r)
          | None => MsgSeparator
          end).
  unfold steady_line. destruct (read_line l) as [r|]; [|by left].
  case_bool_decide; [by left|]. case_bool_decide; [by left|].
  right. cbn [notified]. by rewrite steady_patterns_notified.
Qed.

Lemma notified_prints (ls : list (string * line)) (p : pass) :
  Forall (λ e, is_save e = false ∧ is_upload e = false) (notified p) →
  Forall (λ e, is_save e = false ∧ is_upload e = false)
         (notified (foldl (λ a x, steady_line x.1 a x.2) p ls)).
Proof.
  revert p. induction ls as [|x ls IH]; intros p Hp; [done|].
  cbn [foldl]. apply IH.
  destruct (steady_line_notified x.1 p x.2) as [m [-> | ->]]; [done|].
  apply Forall_app. split; [done|]. by repeat constructor.
Qed.

(** ** The store files after a trace *)

Lemma disk_after_app (d : disk) (t1 t2 : list event) :
  disk_after d (t1 ++ t2) = disk_after (disk_after d t1) t2.
Proof. apply foldl_app. Qed.

Lemma disk_after_no_save (d : disk) (trace : list event) :
  Forall (λ e, is_save e = false) trace → disk_after d trace = d.
Proof.
  induction 1 as [|e trace He _ IH]; [done|].
  unfold disk_after in *. cbn [foldl]. by destruct e.
Qed.

Lemma disk_after_pattern_saves (d : disk) (items : list (string * gmap string Z)) :
  disk_after d ((λ kv, SavePatternCounts kv.1 kv.2) <$> items)
  = {| processed_ids_json := processed_ids_json d;
       project_counts_json := project_counts_json d;
       daily_counts_json := foldl (λ files kv, <[kv.1 := kv.2]> files)
                                  (daily_counts_json d) items;
       daily_total_messages_json := daily_total_messages_json d |}.
Proof.
  revert d. induction items as [|[k c] items IH]; intros d; [by destruct d|].
  unfold disk_after in *. cbn [fmap list_fmap foldl]. by rewrite IH.
Qed.

Lemma lookup_saved (items : list (string * gmap string Z))
    (files : gmap string (gmap string Z)) (name : string) :
  NoDup items.*1 →
  foldl (λ files kv, <[kv.1 := kv.2]> files) files items !! name
  = match (list_to_map items : gmap string (gmap string Z)) !! name with
    | Some counts => Some counts
    | None => files !! name
    end.
Proof.
  revert files. induction items as [|[k c] items IH]; intros files Hnd; [done|].
  cbn [fmap list_fmap fst] in Hnd. apply NoDup_cons in Hnd as [Hk Hnd].
  cbn [foldl]. rewrite list_to_map_cons, IH by done. cbn [fst snd].
  destruct (decide (k = name)) as [->|Hne].
  - rewrite (not_elem_of_list_to_map_1 items name) by done.
    by rewrite !lookup_insert_eq.
  - by rewrite !lookup_insert_ne.
Qed.

Lemma disk_after_save_all (d : disk) (s : state) :
  let d' := disk_after d (save_all s) in
  processed_ids_json d' = Some (processed_ids s)
  ∧ project_counts_json d' = Some (project_counts s)
  ∧ daily_total_messages_json d' = Some (total_messages_counts s)
  ∧ (∀ name counts,
       pattern_counts s !! name = Some counts →
       daily_counts_json d' !! name = Some counts).
Proof.
  intros d'. subst d'. unfold save_all.
  rewrite !disk_after_app, disk_after_pattern_saves.
  cbn. repeat split; try done.
  intros name counts Hname.
  rewrite lookup_saved by apply NoDup_fst_map_to_list.
  by rewrite list_to_map_to_list, Hname.
Qed.

Lemma save_all_no_upload (s : state) :
  Forall (λ e, is_upload e = false) (save_all s).
Proof.
  unfold save_all. repeat (apply Forall_app; split); try by repeat constructor.
  apply Forall_fmap, Forall_forall. done.
Qed.

Lemma pass_upload_no_save (url secret : option string) (upload_ok : bool) (s : state) :
  Forall (λ e, is_save e = false) (pass_upload url secret upload_ok s).
Proof.
  unfold pass_upload. destruct (truthy url), upload_ok; by repeat constructor.
Qed.

(** C9.  In a steady-state pass that found new activity, the trace is:
    the notifications, then the save of every store (the stores as the
    pass left them), then the summary line, and only then the upload.
    Nothing is saved after the upload; the stores held in memory and the
    store files are the same whether the upload succeeds or fails; on a
    failure the engine itself does nothing more, on a success it prints
    one line. *)
Theorem stores_are_saved_before_the_upload
    (url secret : option string) (s : state) (projects : list project_dir) :
  found_new (steady_scan projects s) = true →
  let p := steady_scan projects s in
  let run := λ ok, steady_pass url secret s (projects, ok) in
  let before_upload :=
    notified p ++ save_all (stores p)
    ++ [Print (MsgUpdated (filter (λ kv, 0 < kv.2) (new_matches_by_pattern p))
                          (new_total_messages p))] in
  (∀ ok, (run ok).1 = stores p)
  ∧ (∀ ok, (run ok).2 = before_upload ++ pass_upload url secret ok (stores p))
  ∧ Forall (λ e, is_upload e = false) before_upload
  ∧ (∀ ok, Forall (λ e, is_save e = false) (pass_upload url secret ok (stores p)))
  ∧ (∀ d ok,
       processed_ids_json (disk_after d (run ok).2) = Some (processed_ids (stores p))
       ∧ project_counts_json (disk_after d (run ok).2) = Some (project_counts (stores p))
       ∧ daily_total_messages_json (disk_after d (run ok).2)
         = Some (total_messages_counts (stores p))
       ∧ (∀ name counts,
            pattern_counts (stores p) !! name = Some counts →
            daily_counts_json (disk_after d (run ok).2) !! name = Some counts))
  ∧ (∀ d, disk_after d (run true).2 = disk_after d (run false).2)
  ∧ (run true).2
    = (run false).2
      ++ if truthy url
         then [Print (MsgUploaded (today_patterns (stores p)) (today_total (stores p)))]
         else [].
Proof.
  intros Hnew p run before_upload.
  assert (Hquiet : Forall (λ e, is_save e = false ∧ is_upload e = false) (notified p)).
  { subst p. unfold steady_scan. rewrite scan_flatten. by apply notified_prints. }
  assert (Htrace : ∀ ok, (run ok).2
                         = before_upload ++ pass_upload url secret ok (stores p)).
  { intros ok. subst run. cbn [steady_pass fst snd]. fold p. unfold report.
    fold p in Hnew. rewrite Hnew. subst before_upload. by rewrite <- !app_assoc. }
  assert (Hdisk : ∀ d ok, disk_after d (run ok).2
                          = disk_after d (save_all (stores p))).
  { intros d ok. rewrite Htrace. subst before_upload.
    rewrite !disk_after_app.
    rewrite (disk_after_no_save d (notified p))
      by (eapply Forall_impl; [exact Hquiet|by intros e [? ?]]).
    rewrite (disk_after_no_save _ [Print _]) by (by repeat constructor).
    by rewrite disk_after_no_save by apply pass_upload_no_save. }
  split; [done|]. split; [exact Htrace|]. split; [|split; [|split; [|split]]].
  - subst before_upload. apply Forall_app. split.
    + eapply Forall_impl; [exact Hquiet|by intros e [? ?]].
    + apply Forall_app. split; [apply save_all_no_upload|by repeat constructor].
  - intros ok. apply pass_upload_no_save.
  - intros d ok. rewrite Hdisk. apply disk_after_save_all.
  - intros d. by rewrite !Hdisk.
  - rewrite !Htrace. unfold pass_upload. destruct (truthy url); cbn.
    + by rewrite <- app_assoc.
    + by rewrite !app_nil_r.
Qed.

End Persistence.

(* ===================================================================== *)
(** * The properties on concrete logs *)
(* ===================================================================== *)

Section Concrete.
#[local] Existing Instance Example.counter.

(** C1, the failing input: the stores of a previous run record 5 matches
    of "absolutely" for today, the backfill finds none, and the stored
    value is still 5 after the startup, not the fresh total 0: the guard
    [if count > 0] (line 253) skips the assignment that the comments of
    lines 248 and 254 announce, where the total of all messages (line
    244) is overwritten with 0 included. *)
Lemma zero_total_keeps_the_stale_count :
  get0 (pattern_matches
          (backfill_today_patterns (Some Example.none_today)
             (processed_ids (load Example.stale)) ∅).1) "absolutely" = 0
  ∧ count_at (pattern_counts (load Example.stale)) "absolutely" "2024-01-02" = 5
  ∧ count_at (pattern_counts
                (held (startup ["watcher.py"] Example.stale
                               (Some Example.none_today) false)))
             "absolutely" "2024-01-02" = 5.
Proof. by vm_compute. Qed.

(** C2, counterexample: over a restart an id in the processed-id set
    need not have its contribution in the counters, and can have two.
    A message of 2024-01-01 that matches "absolutely" is counted for its
    project by a run on that day; the run of the next day starts from
    the files the first left, keeps the id as processed and holds the
    count 0 for the project, since the startup resets the project counts
    and recounts the messages of today alone.  And an id carried by two
    lines, dated 2024-01-01 and 2024-01-02, is counted once by the first
    run, under the first date, and once more by the backfill of the
    second run, under the second date, although the id was processed:
    the per-pattern and the total counters hold two contributions of
    the one id. *)
Lemma a_restart_breaks_exactly_once :
  (get0 (project_counts (Example.first_run Example.old_message).1) "proj-a" = 1
   ∧ processed_ids (Example.second_run Example.old_message).1 = {[ "m1" ]}
   ∧ get0 (project_counts (Example.second_run Example.old_message).1) "proj-a" = 0)
  ∧ (processed_ids (Example.first_run Example.two_dates).1 = {[ "m1" ]}
     ∧ count_at (pattern_counts (Example.first_run Example.two_dates).1)
                "absolutely" "2024-01-01" = 1
     ∧ count_at (pattern_counts (Example.first_run Example.two_dates).1)
                "absolutely" "2024-01-02" = 0
     ∧ processed_ids (Example.second_run Example.two_dates).1 = {[ "m1" ]}
     ∧ count_at (pattern_counts (Example.second_run Example.two_dates).1)
                "absolutely" "2024-01-01" = 1
     ∧ count_at (pattern_counts (Example.second_run Example.two_dates).1)
                "absolutely" "2024-01-02" = 1
     ∧ get0 (total_messages_counts (Example.second_run Example.two_dates).1)
            "2024-01-01" = 1
     ∧ get0 (total_messages_counts (Example.second_run Example.two_dates).1)
            "2024-01-02" = 1
     ∧ final_count (Example.second_run Example.two_dates).1 "absolutely" = 2).
Proof. by vm_compute. Qed.


(** The scenario of the specification: 5 stored, the backfill finds 3
    and the stored value becomes 3; a pass then finds one new matching
    message and the value becomes 4. *)
Example backfill_sets_three_then_a_pass_adds_one :
  count_at (pattern_counts (load Example.stale)) "absolutely" "2024-01-02" = 5
  ∧ count_at (pattern_counts
                (main ["watcher.py"] Example.stale (Some Example.three_today) false []).1)
             "absolutely" "2024-01-02" = 3
  ∧ count_at (pattern_counts
                (main ["watcher.py"] Example.stale (Some Example.three_today) false
                      [(Example.four_today, false)]).1)
             "absolutely" "2024-01-02" = 4.
Proof. by vm_compute. Qed.

Lemma message_counts_once_per_pattern_witness :
  read_line Example.both = Some Example.both_result
  ∧ (msg_id Example.both_result ∉ processed_ids (stores Example.fresh_pass))
  ∧ count_at (pattern_counts (stores (steady_line "proj-a" Example.fresh_pass Example.both)))
             "absolutely" "2024-01-02"
    = count_at (pattern_counts (stores Example.fresh_pass)) "absolutely" "2024-01-02" + 1
  ∧ count_at (pattern_counts (stores (steady_line "proj-a" Example.fresh_pass Example.both)))
             "right" "2024-01-02"
    = count_at (pattern_counts (stores Example.fresh_pass)) "right" "2024-01-02" + 1
  ∧ get0 (total_messages_counts
            (stores (steady_line "proj-a" Example.fresh_pass Example.both)))
         "2024-01-02"
    = get0 (total_messages_counts (stores Example.fresh_pass)) "2024-01-02" + 1.
Proof.
  assert (Hread : read_line Example.both = Some Example.both_result)
    by (vm_compute; reflexivity).
  assert (Hnew : msg_id Example.both_result ∉ processed_ids (stores Example.fresh_pass))
    by (apply (bool_decide_eq_false_1 _); vm_compute; reflexivity).
  split; [exact Hread|]. split; [exact Hnew|].
  apply (proj1 (proj2 (proj2 (proj2 (proj2
           (message_counts_once_per_pattern "proj-a" Example.fresh_pass
              Example.both Example.both_result Hread Hnew)))))
           "absolutely" "right").
  - discriminate.
  - apply (bool_decide_unpack _). vm_compute. exact I.
  - apply (bool_decide_unpack _). vm_compute. exact I.
Defined.

Lemma daily_counts_never_decrease_witness :
  "2024-01-01" ≠ get_utc_today
  ∧ count_at (pattern_counts
                (held (startup ["watcher.py"] Example.stale
                               (Some Example.three_today) false)))
             "absolutely" "2024-01-01"
    = count_at (pattern_counts (load Example.stale)) "absolutely" "2024-01-01".
Proof.
  assert (Hdate : "2024-01-01" ≠ get_utc_today) by discriminate.
  split; [exact Hdate|].
  exact (proj1 (daily_counts_never_decrease ["watcher.py"] Example.stale
                  (Some Example.three_today) false "absolutely" "2024-01-01" Hdate)).
Defined.

(** C6, counterexample: without a scan root the startup still writes
    store files, and they differ from what was stored: the project
    counts are replaced by an empty object and the total of today by 0. *)
Lemma missing_root_still_writes_stores :
  existsb is_save (effects (startup ["watcher.py"] Example.stale None false)) = true
  ∧ project_counts_json Example.stale = Some {[ "proj-a" := 7 ]}
  ∧ project_counts_json
      (disk_after Example.stale (effects (startup ["watcher.py"] Example.stale None false)))
    = Some ∅
  ∧ daily_total_messages_json
      (disk_after Example.stale (effects (startup ["watcher.py"] Example.stale None false)))
    = Some {[ "2024-01-02" := 0 ]}.
Proof. by vm_compute. Qed.

Lemma stores_are_saved_before_the_upload_witness :
  found_new (steady_scan Example.four_today (load Example.stale)) = true
  ∧ disk_after Example.stale
      (steady_pass (Some "http://localhost") None (load Example.stale)
                   (Example.four_today, true)).2
    = disk_after Example.stale
        (steady_pass (Some "http://localhost") None (load Example.stale)
                     (Example.four_today, false)).2.
Proof.
  assert (Hnew : found_new (steady_scan Example.four_today (load Example.stale)) = true)
    by (vm_compute; reflexivity).
  split; [exact Hnew|].
  exact (proj1 (proj2 (proj2 (proj2 (proj2 (proj2
           (stores_are_saved_before_the_upload (Some "http://localhost") None
              (load Example.stale) Example.four_today Hnew))))))
           Example.stale).
Defined.

End Concrete.

(* ===================================================================== *)
(** * Further properties of the supervisor *)
(* ===================================================================== *)

Section SupervisorRuns.
Import Supervisor.

(** ** The restart budget over a run *)

Lemma recent_app (now : Z) (l1 l2 : list Z) :
  recent now (l1 ++ l2) = recent now l1 ++ recent now l2.
Proof. apply filter_app. Qed.

Lemma recent_recent (earlier now : Z) (times : list Z) :
  earlier ≤ now → recent now (recent earlier times) = recent now times.
Proof.
  intros Hle. unfold recent. induction times as [|t times IH]; [done|].
  rewrite !filter_cons. unfold restart_window in *.
  repeat case_decide; rewrite ?filter_cons; repeat case_decide;
    try lia; by rewrite IH.
Qed.

Lemma recent_length (now : Z) (times : list Z) :
  (length (recent now times) ≤ length times)%nat.
Proof. apply length_filter. Qed.

Lemma check_and_restart_bounded (current_time : Z) (w : WatcherProcess) :
  (length (restart_times w) ≤ 5)%nat →
  (length (restart_times (check_and_restart current_time w).2) ≤ 5)%nat.
Proof.
  intros Hlen. unfold check_and_restart. destruct (alive w); [done|].
  pose proof (recent_length current_time (restart_times w)).
  unfold max_restarts. case_bool_decide; cbn [snd restart_times].
  - lia.
  - rewrite length_app. cbn [length]. lia.
Qed.

Lemma monitor_logged_state (turns : list (bool * Z)) (w : WatcherProcess) (log : list Z) :
  (foldl monitor_logged (w, log) turns).1 = foldl monitor w turns.
Proof.
  revert w log. induction turns as [|[died t] turns IH]; intros w log; [done|].
  cbn [foldl]. unfold monitor_logged at 2. cbn [fst snd]. by rewrite IH.
Qed.

Lemma monitor_logged_invariant (turns : list (bool * Z)) (w : WatcherProcess)
    (log : list Z) (from : Z) :
  StronglySorted Z.le (from :: turns.*2) →
  (∀ now, from ≤ now → recent now log = recent now (restart_times w)) →
  (length (restart_times w) ≤ 5)%nat →
  restart_count w = Z.of_nat (length log) →
  let final := foldl monitor_logged (w, log) turns in
  (∀ now, (∀ t, t ∈ from :: turns.*2 → t ≤ now) →
          recent now final.2 = recent now (restart_times final.1))
  ∧ (length (restart_times final.1) ≤ 5)%nat
  ∧ restart_count final.1 = Z.of_nat (length final.2).
Proof.
  revert w log from. induction turns as [|[died t] turns IH];
    intros w log from Hsorted Hlog Hlen Hcount.
  - cbn. split; [|done]. intros now Hnow. apply Hlog, Hnow, list_elem_of_here.
  - cbn [fmap list_fmap snd] in *.
    apply StronglySorted_inv in Hsorted as [Hsorted Hfrom].
    assert (Hft : from ≤ t) by (by apply Forall_cons in Hfrom as [? _]).
    cbn [foldl]. unfold monitor_logged at 2.
    set (w1 := if died then crash w else w).
    assert (Htimes : restart_times w1 = restart_times w) by (by destruct died).
    assert (Hcount1 : restart_count w1 = restart_count w) by (by destruct died).
    cbn [fst snd].
    assert (Hlog1 : ∀ now, t ≤ now →
              recent now (if (check_and_restart t w1).1 then log ++ [t] else log)
              = recent now (restart_times (check_and_restart t w1).2)).
    { intros now Hnow. unfold check_and_restart. rewrite Htimes.
      destruct (alive w1); cbn [fst snd].
      - rewrite Htimes. apply Hlog. lia.
      - unfold max_restarts. case_bool_decide; cbn [fst snd restart_times].
        + rewrite recent_recent by done. apply Hlog. lia.
        + rewrite !recent_app, recent_recent by done. f_equal. apply Hlog. lia. }
    assert (Hlen1 : (length (restart_times (check_and_restart t w1).2) ≤ 5)%nat).
    { apply check_and_restart_bounded. by rewrite Htimes. }
    assert (Hcount1' : restart_count (check_and_restart t w1).2
                       = Z.of_nat (length (if (check_and_restart t w1).1
                                           then log ++ [t] else log))).
    { unfold check_and_restart. destruct (alive w1); cbn [fst snd]; [congruence|].
      unfold max_restarts. case_bool_decide; cbn [fst snd restart_count].
      - congruence.
      - rewrite length_app. cbn [length]. lia. }
    destruct (IH _ _ t Hsorted Hlog1 Hlen1 Hcount1') as (IHlog & IHlen & IHcount).
    split; [|done]. intros now Hnow. apply IHlog.
    intros t' Ht'. apply Hnow. by apply list_elem_of_further.
Qed.

(** X1.  The restart budget.  In a run of the monitoring loop whose
    clock does not go back, at any time not before the last check, at
    most 5 of the restarts performed lie within the last 60 seconds;
    the list of restart times the watcher holds never has more than 5
    entries, and [restart_count] is the number of restarts performed. *)
Theorem at_most_five_restarts_per_window (turns : list (bool * Z)) (now : Z) :
  StronglySorted Z.le turns.*2 →
  (∀ t, t ∈ turns.*2 → t ≤ now) →
  let run := foldl monitor_logged (started, []) turns in
  run.1 = foldl monitor started turns
  ∧ (length (recent now run.2) ≤ 5)%nat
  ∧ (length (restart_times run.1) ≤ 5)%nat
  ∧ restart_count run.1 = Z.of_nat (length run.2).
Proof.
  intros Hsorted Hnow run. split; [apply monitor_logged_state|].
  destruct turns as [|[died t0] turns'].
  { cbn. repeat split; lia. }
  assert (Hsorted0 : StronglySorted Z.le (t0 :: ((died, t0) :: turns').*2)).
  { cbn [fmap list_fmap snd] in *. constructor; [done|].
    constructor; [lia|]. by apply StronglySorted_inv in Hsorted as [_ ?]. }
  assert (Hlen0 : (length (restart_times started) ≤ 5)%nat) by (cbn; lia).
  destruct (monitor_logged_invariant ((died, t0) :: turns') started [] t0 Hsorted0
              (λ _ _, eq_refl) Hlen0 eq_refl) as (Hlog & Hlen & Hcount).
  split; [|split; assumption].
  subst run. rewrite Hlog.
  - etransitivity; [apply recent_length|exact Hlen].
  - intros t [->|Ht]%elem_of_cons; [|by apply Hnow].
    apply Hnow. cbn. apply list_elem_of_here.
Qed.

Lemma at_most_five_restarts_per_window_witness :
  StronglySorted Z.le Example.crash_loop.*2
  ∧ (length (recent 70 (foldl monitor_logged (started, []) Example.crash_loop).2)
     ≤ 5)%nat.
Proof.
  assert (Hsorted : StronglySorted Z.le Example.crash_loop.*2).
  { cbn. repeat (constructor; [|repeat constructor; lia]). constructor. }
  split; [exact Hsorted|].
  apply (at_most_five_restarts_per_window _ 70 Hsorted).
  intros t Ht. cbn in Ht.
  repeat (apply elem_of_cons in Ht as [->|Ht]; [lia|]). inversion Ht.
Defined.

End SupervisorRuns.

Section Forwarding.
Import Cli Supervisor.

(** ** The arguments the supervisor passes to the engines *)

Lemma is_option_spec (arg : string) :
  is_option arg = true ↔ arg = "--secret" ∨ arg = "--upload".
Proof.
  unfold is_option. rewrite orb_true_iff, !bool_decide_eq_true. tauto.
Qed.

Lemma is_option_dashes (arg : string) :
  is_option arg = true → startswith_dashes arg = true.
Proof. by intros [-> | ->]%is_option_spec. Qed.

Lemma not_option (arg : string) :
  is_option arg = false → arg ≠ "--upload" ∧ arg ≠ "--secret".
Proof.
  intros Hno. split; intros ->; by vm_compute in Hno.
Qed.

Lemma scan_args_skip (arg : string) (rest : list string) (u s : option string) :
  is_option arg = false → scan_args (arg :: rest) u s = scan_args rest u s.
Proof.
  intros [Hu Hs]%not_option. destruct rest as [|next rest]; [done|].
  by apply scan_args_other.
Qed.

Lemma forward_from_head (args : list string) (y : string) (rest : list string) :
  forward_from false args = y :: rest → is_option y = true.
Proof.
  induction args as [|a args IH]; [done|]. cbn [forward_from].
  destruct (is_option a) eqn:Ha; cbn [orb].
  - by intros [= <- _].
  - apply IH.
Qed.

Lemma forward_from_upload (after_option : bool) (pre tail : list string) :
  forward_from after_option (pre ++ "--upload" :: tail)
  = forward_from after_option (pre ++ ["--upload"]) ++ forward_from true tail.
Proof.
  revert after_option. induction pre as [|a pre IH]; intros after_option; [done|].
  cbn [app forward_from]. destruct (is_option a || after_option); by rewrite IH.
Qed.

Lemma forward_from_elem (after_option : bool) (args : list string) (x : string) :
  x ∈ forward_from after_option args → x ∈ args.
Proof.
  revert after_option. induction args as [|a args IH]; intros after_option; [done|].
  cbn [forward_from]. destruct (is_option a || after_option).
  - intros [->|Hin]%elem_of_cons; [apply list_elem_of_here|].
    apply list_elem_of_further. by eapply IH.
  - intros Hin. apply list_elem_of_further. by eapply IH.
Qed.

(** Up to the first [--upload] that has a value, the engine reads the
    forwarded arguments as it reads the original ones. *)
Lemma scan_args_forwarded_url (args : list string) (arg : string)
    (u s : option string) :
  (scan_args (arg :: forward_from (is_option arg) args) u s).1
  = (scan_args (arg :: args) u s).1.
Proof.
  revert arg s. induction args as [|a args IH]; intros arg s; [done|].
  cbn [forward_from]. destruct (is_option arg) eqn:Harg.
  - rewrite orb_true_r.
    apply is_option_spec in Harg as [-> | ->].
    + rewrite !(scan_args_cons "--secret") by done. apply IH.
    + done.
  - rewrite orb_false_r. destruct (not_option arg Harg) as [Hu Hs].
    rewrite (scan_args_skip arg (a :: args)) by done.
    specialize (IH a s). destruct (is_option a) eqn:Ha.
    + by rewrite scan_args_skip.
    + rewrite scan_args_skip by done.
      by rewrite <- (scan_args_skip a (forward_from false args)).
Qed.

Lemma scan_args_forwarded_options (pre : list string) (arg : string)
    (u s : option string) :
  arg ≠ "--upload" → "--upload" ∉ pre →
  scan_args (arg :: forward_from (is_option arg) (pre ++ ["--upload"])) u s
  = scan_args (arg :: pre ++ ["--upload"]) u s.
Proof.
  revert arg s. induction pre as [|a pre IH]; intros arg s Harg Hpre.
  - cbn [app forward_from]. by rewrite orb_true_l.
  - apply not_elem_of_cons in Hpre as [Ha Hpre].
    assert (Ha' : a ≠ "--upload") by done.
    cbn [app forward_from]. destruct (is_option arg) eqn:Hopt.
    + rewrite orb_true_r.
      apply is_option_spec in Hopt as [-> | ->]; [|done].
      rewrite !(scan_args_cons "--secret") by done. by apply IH.
    + rewrite orb_false_r.
      rewrite (scan_args_skip arg (a :: pre ++ ["--upload"])) by done.
      specialize (IH a s Ha' Hpre). destruct (is_option a) eqn:Hopta.
      * by rewrite scan_args_skip.
      * rewrite scan_args_skip by done.
        by rewrite <- (scan_args_skip a (forward_from false (pre ++ ["--upload"]))).
Qed.

(** X2.  An engine started by the supervisor uploads to the same URL as
    an engine started directly with the supervisor's arguments. *)
Theorem forwarding_keeps_the_url
    (server_url : option string) (script_path program : string)
    (args : list string) :
  is_option script_path = false →
  (parse_args server_url (child_argv script_path (program :: args))).1
  = (parse_args server_url (script_path :: args)).1.
Proof.
  intros Hscript. unfold parse_args, child_argv, forwarded.
  rewrite <- Hscript at 1. apply scan_args_forwarded_url.
Qed.

Lemma forwarding_keeps_the_url_witness :
  is_option "watcher.py" = false
  ∧ (parse_args (Some "http://default")
       (child_argv "watcher.py"
          ["unified_watcher.py"; "--verbose"; "--upload"; "http://u"; "s3cret"])).1
    = (parse_args (Some "http://default")
         ["watcher.py"; "--verbose"; "--upload"; "http://u"; "s3cret"]).1.
Proof.
  split; [reflexivity|].
  exact (forwarding_keeps_the_url (Some "http://default") "watcher.py"
           "unified_watcher.py" ["--verbose"; "--upload"; "http://u"; "s3cret"]
           eq_refl).
Defined.

(** X3.  A secret given to the supervisor in the position after the URL
    ([--upload url secret]) does not reach the engines: started
    directly with these arguments the engine takes it as the secret;
    started by the supervisor it gets only what the [--secret] options
    before [--upload] gave, and no secret when there is none. *)
Theorem positional_secret_is_not_forwarded
    (server_url : option string) (script_path program : string)
    (pre rest : list string) (url secret : string) :
  is_option script_path = false →
  "--upload" ∉ pre →
  is_option url = false →
  startswith_dashes secret = false →
  let args := pre ++ "--upload" :: url :: secret :: rest in
  parse_args server_url (script_path :: args) = (Some url, Some secret)
  ∧ parse_args server_url (child_argv script_path (program :: args))
    = (Some url, (parse_args server_url (script_path :: pre ++ ["--upload"])).2)
  ∧ ("--secret" ∉ pre →
     parse_args server_url (child_argv script_path (program :: args))
     = (Some url, None)).
Proof.
  intros Hscript Hpre Hurl Hsecret args.
  destruct (not_option script_path Hscript) as [Hsu Hss].
  assert (Hpre' : "--upload" ∉ script_path :: pre).
  { apply not_elem_of_cons. split; [done|exact Hpre]. }
  assert (Hchild : parse_args server_url (child_argv script_path (program :: args))
                   = (Some url,
                      (parse_args server_url (script_path :: pre ++ ["--upload"])).2)).
  { unfold parse_args, child_argv, forwarded. subst args.
    rewrite forward_from_upload. cbn [forward_from]. rewrite Hurl. cbn [orb].
    assert (is_option secret = false) as ->.
    { destruct (is_option secret) eqn:Hopt; [|done].
      apply is_option_dashes in Hopt. congruence. }
    cbn [orb].
    assert (Hfwd : ∀ after, forward_from after (pre ++ ["--upload"])
                            = forward_from after pre ++ ["--upload"]).
    { intros after. clear. revert after.
      induction pre as [|a pre IH]; intros after; [done|].
      cbn [app forward_from]. destruct (is_option a || after); by rewrite IH. }
    rewrite Hfwd, <- app_assoc. cbn [app].
    change (script_path :: forward_from false pre ++ "--upload" :: url
                        :: forward_from false rest)
      with ((script_path :: forward_from false pre) ++ "--upload" :: url
                        :: forward_from false rest).
    rewrite scan_args_upload.
    2: { apply not_elem_of_cons. split; [done|].
         intros Hin. by apply Hpre, (forward_from_elem false). }
    f_equal.
    assert (Hbefore : (scan_args ((script_path :: forward_from false pre) ++ ["--upload"])
                                 server_url None).2
                      = (scan_args (script_path :: pre ++ ["--upload"]) server_url None).2).
    { cbn [app]. rewrite <- Hfwd. rewrite <- Hscript at 1.
      by rewrite scan_args_forwarded_options. }
    destruct (forward_from false rest) as [|y tail] eqn:Hrest; [exact Hbefore|].
    apply forward_from_head, is_option_dashes in Hrest. by rewrite Hrest. }
  split; [|split; [exact Hchild|]].
  - unfold parse_args. subst args.
    change (script_path :: pre ++ "--upload" :: url :: secret :: rest)
      with ((script_path :: pre) ++ "--upload" :: url :: secret :: rest).
    rewrite scan_args_upload by done. by rewrite Hsecret.
  - intros Hnone. rewrite Hchild. f_equal. unfold parse_args.
    change (script_path :: pre ++ ["--upload"])
      with ((script_path :: pre) ++ ["--upload"]).
    rewrite (proj2 (scan_args_plain (script_path :: pre) _ _ Hpre' ltac:(
      apply not_elem_of_cons; split; [done|exact Hnone]))). done.
Qed.

Lemma positional_secret_is_not_forwarded_witness :
  is_option "watcher.py" = false
  ∧ ("--upload" ∉ ([] : list string))
  ∧ is_option "http://u" = false
  ∧ startswith_dashes "s3cret" = false
  ∧ parse_args (Some "http://default")
      (child_argv "watcher.py" ["unified_watcher.py"; "--upload"; "http://u"; "s3cret"])
    = (Some "http://u", None).
Proof.
  assert (Hpre : "--upload" ∉ ([] : list string)) by apply not_elem_of_nil.
  split; [reflexivity|]. split; [exact Hpre|]. split; [reflexivity|].
  split; [reflexivity|].
  exact (proj2 (proj2 (positional_secret_is_not_forwarded (Some "http://default")
           "watcher.py" "unified_watcher.py" [] [] "http://u" "s3cret"
           eq_refl Hpre eq_refl eq_refl)) (not_elem_of_nil _)).
Defined.

Lemma forward_from_idempotent (after_option : bool) (args : list string) :
  forward_from after_option (forward_from after_option args)
  = forward_from after_option args.
Proof.
  revert after_option. induction args as [|a args IH]; intros after_option; [done|].
  cbn [forward_from]. destruct (is_option a || after_option) eqn:Hkeep.
  - cbn [forward_from]. by rewrite Hkeep, IH.
  - apply orb_false_iff in Hkeep as [-> ->]. apply IH.
Qed.

(** X4.  Options given as pairs ([--secret value], [--upload value]) are
    forwarded as they are, and forwarding what was forwarded changes
    nothing. *)
Theorem forwarding_keeps_option_pairs
    (program : string) (pairs : list (string * string)) :
  Forall (λ pair, is_option pair.1 = true) pairs →
  forwarded (program :: (pairs ≫= λ pair, [pair.1; pair.2]))
  = (pairs ≫= λ pair, [pair.1; pair.2])
  ∧ (∀ args, forwarded (program :: forwarded (program :: args))
             = forwarded (program :: args)).
Proof.
  intros Hpairs. split; [|intros args; apply forward_from_idempotent].
  cbn [forwarded]. generalize false.
  induction Hpairs as [|[o v] pairs Ho _ IH]; intros after; [done|].
  cbn [fst] in Ho. rewrite bind_cons. cbn [fst snd app forward_from].
  rewrite Ho. cbn [orb].
  destruct (is_option v || true) eqn:Hv; [|by rewrite orb_true_r in Hv].
  by rewrite IH.
Qed.

Lemma forwarding_keeps_option_pairs_witness :
  Forall (λ pair : string * string, is_option pair.1 = true)
         [("--secret", "s3cret"); ("--upload", "http://u")]
  ∧ forwarded ["unified_watcher.py"; "--secret"; "s3cret"; "--upload"; "http://u"]
    = ["--secret"; "s3cret"; "--upload"; "http://u"].
Proof.
  assert (Hpairs : Forall (λ pair : string * string, is_option pair.1 = true)
                          [("--secret", "s3cret"); ("--upload", "http://u")])
    by (repeat constructor).
  split; [exact Hpairs|].
  exact (proj1 (forwarding_keeps_option_pairs "unified_watcher.py" _ Hpairs)).
Defined.

End Forwarding.

(* ===================================================================== *)
(** * Further properties of the engine *)
(* ===================================================================== *)

Section IdlePasses.
Context `{claude_counter}.

(** ** Passes that find nothing *)

Lemma once_per_id_nil (seen : gset string) (rs : list (string * result)) :
  once_per_id seen rs = [] ↔ ∀ x, x ∈ rs → msg_id x.2 ∈ seen.
Proof.
  induction rs as [|y rs IH]; cbn [once_per_id].
  - split; [|done]. by intros _ x ?%not_elem_of_nil.
  - case_bool_decide as Hy.
    + rewrite IH. split.
      * intros Hall x [->|Hx]%elem_of_cons; [done|by apply Hall].
      * intros Hall x Hx. by apply Hall, list_elem_of_further.
    + split; [done|]. intros Hall. exfalso. apply Hy, Hall, list_elem_of_here.
Qed.

Lemma elem_of_results (x : string * line) (r : result) (ls : list (string * line)) :
  x ∈ ls → read_line x.2 = Some r → (x.1, r) ∈ results ls.
Proof.
  intros Hx Hread. unfold results. apply list_elem_of_omap.
  exists x. split; [done|]. by rewrite Hread.
Qed.

Lemma steady_fold_idle (ls : list (string * line)) (p : pass) :
  (∀ x, x ∈ results ls → msg_id x.2 ∈ processed_ids (stores p)) →
  foldl (λ a x, steady_line x.1 a x.2) p ls = p.
Proof.
  induction ls as [|x ls IH]; intros Hall; [done|].
  cbn [foldl]. rewrite steady_line_skips.
  - apply IH. intros y Hy. apply Hall. rewrite results_cons.
    destruct (read_line x.2); [by apply list_elem_of_further|done].
  - destruct (read_line x.2) as [r|] eqn:Hread; [|done].
    apply (Hall (x.1, r)). rewrite results_cons, Hread. apply list_elem_of_here.
Qed.

Lemma found_new_init (s : state) : found_new (pass_init s) = false.
Proof.
  unfold found_new, pass_init. cbn [new_matches_by_pattern new_total_messages].
  apply orb_false_iff. split; apply bool_decide_eq_false_2; [|lia].
  intros (k & v & Hkv & Hv). unfold zero_counts in Hkv.
  rewrite lookup_fmap in Hkv. destruct (PATTERNS !! k); cbn in Hkv; [|done].
  by injection Hkv as <-.
Qed.

Lemma steady_pass_idle (url secret : option string) (s : state)
    (projects : list project_dir) (upload_ok : bool) :
  (∀ x, x ∈ results (scanned_lines projects) → msg_id x.2 ∈ processed_ids s) →
  steady_pass url secret s (projects, upload_ok) = (s, []).
Proof.
  intros Hall. unfold steady_pass, steady_scan. cbn [fst snd].
  rewrite scan_flatten, steady_fold_idle by done.
  unfold report. by rewrite found_new_init.
Qed.

(** X5.  A pass over a log in which every message is already processed
    changes no store and has no effect at all: nothing is printed,
    saved or uploaded.  A pass that counts at least one new message
    reports it, and so saves every store. *)
Theorem idle_pass_does_nothing
    (url secret : option string) (s : state) (projects : list project_dir)
    (upload_ok : bool) :
  ((∀ x, x ∈ results (scanned_lines projects) → msg_id x.2 ∈ processed_ids s) →
   steady_pass url secret s (projects, upload_ok) = (s, []))
  ∧ (once_per_id (processed_ids s) (results (scanned_lines projects)) ≠ [] →
     found_new (steady_scan projects s) = true).
Proof.
  split.
  - apply steady_pass_idle.
  - intros Hnew. unfold found_new.
    destruct (steady_scan_counts projects s) as (_ & -> & _).
    apply orb_true_iff. right. apply bool_decide_eq_true_2.
    destruct (once_per_id _ _); [done|]. cbn [length]. lia.
Qed.

(** X6.  A pass is idempotent: right after a pass, a second pass over
    the same log finds every message processed, changes no store and
    has no effect, whatever the first one counted. *)
Theorem second_pass_does_nothing
    (url secret url' secret' : option string) (s : state)
    (projects : list project_dir) (upload_ok upload_ok' : bool) :
  let s1 := (steady_pass url secret s (projects, upload_ok)).1 in
  (∀ x, x ∈ results (scanned_lines projects) → msg_id x.2 ∈ processed_ids s1)
  ∧ steady_pass url' secret' s1 (projects, upload_ok') = (s1, []).
Proof.
  intros s1.
  assert (Hall : ∀ x, x ∈ results (scanned_lines projects) →
                      msg_id x.2 ∈ processed_ids s1).
  { intros x Hx. subst s1. cbn [steady_pass fst].
    destruct (steady_scan_counts projects s) as (-> & _).
    destruct (decide (msg_id x.2 ∈ processed_ids s)) as [Hin|Hnew]; [set_solver|].
    apply elem_of_union_l, elem_of_list_to_set, elem_of_ids_once_per_id.
    split; [done|]. unfold ids. apply list_elem_of_fmap. by exists x. }
  split; [exact Hall|].
  by apply steady_pass_idle.
Qed.

End IdlePasses.

Section ConcretePasses.
#[local] Existing Instance Example.counter.

Lemma idle_pass_does_nothing_witness :
  (∀ x, x ∈ results
                (scanned_lines Example.three_today) →
        msg_id x.2 ∈ ({[ "m1"; "m2"; "m3" ]} : gset string))
  ∧ steady_pass (Some "http://localhost") None
      {| processed_ids := {[ "m1"; "m2"; "m3" ]}; project_counts := ∅;
         pattern_counts := ∅; total_messages_counts := ∅ |}
      (Example.three_today, true)
    = ({| processed_ids := {[ "m1"; "m2"; "m3" ]}; project_counts := ∅;
          pattern_counts := ∅; total_messages_counts := ∅ |}, []).
Proof.
  assert (Hall : ∀ x, x ∈ results
                          (scanned_lines Example.three_today) →
                      msg_id x.2 ∈ ({[ "m1"; "m2"; "m3" ]} : gset string)).
  { intros x Hx. vm_compute in Hx.
    repeat (apply elem_of_cons in Hx as [->|Hx];
            [apply (bool_decide_unpack _); vm_compute; exact I|]).
    inversion Hx. }
  split; [exact Hall|].
  exact (proj1 (idle_pass_does_nothing (Some "http://localhost")
                  None {| processed_ids := {[ "m1"; "m2"; "m3" ]}; project_counts := ∅;
                          pattern_counts := ∅; total_messages_counts := ∅ |}
                  Example.three_today true) Hall).
Defined.

End ConcretePasses.

Section Keys.
Context `{claude_counter}.

(** ** The keys of the per-pattern counters *)

Lemma message_patterns_known (l : line) (r : result) :
  read_line l = Some r → message_patterns r ⊆ dom PATTERNS.
Proof.
  destruct l as [|e]; [done|]. cbn [read_line]. unfold process_message_entry.
  case_bool_decide; [|done]. destruct (entry_msg_id e); [|done].
  destruct (e_timestamp e); try done. intros [= <-].
  unfold message_patterns. cbn [text_blocks].
  intros name (X & [block [-> Hblock]]%list_elem_of_fmap & Hname)%elem_of_union_list.
  apply list_elem_of_fmap in Hblock as [t [-> _]]. cbn [snd] in Hname.
  unfold matched_patterns in Hname. apply elem_of_dom in Hname as [pattern Hname].
  apply map_lookup_filter_Some in Hname as [Hname _]. apply elem_of_dom. eauto.
Qed.

Lemma dom_incr (k : string) (d : gmap string Z) : dom (incr k d) = {[k]} ∪ dom d.
Proof. unfold incr. apply dom_insert_L. Qed.

Lemma dom_zero_counts : dom zero_counts = dom PATTERNS.
Proof. unfold zero_counts. apply dom_fmap_L. Qed.

Lemma dom_load (d : disk) : dom (pattern_counts (load d)) = dom PATTERNS.
Proof.
  cbn [load pattern_counts]. apply set_eq. intros name.
  rewrite !elem_of_dom, map_lookup_imap.
  destruct (PATTERNS !! name); cbn; split; intros [? ?]; eauto; done.
Qed.

Lemma backfill_patterns_keys (project_name : string) (names : list string)
    (b : backfill) :
  dom (pattern_matches (foldl (backfill_pattern project_name) b names))
  = list_to_set names ∪ dom (pattern_matches b).
Proof.
  revert b. induction names as [|n names IH]; intros b; [set_solver|].
  cbn [foldl]. rewrite IH. cbn [backfill_pattern pattern_matches].
  rewrite dom_incr. set_solver.
Qed.

Lemma backfill_fold_keys (ls : list (string * line)) (b : backfill) :
  dom (pattern_matches b) = dom PATTERNS →
  dom (pattern_matches (foldl (λ a x, backfill_line x.1 a x.2) b ls)) = dom PATTERNS.
Proof.
  revert b. induction ls as [|x ls IH]; intros b Hb; [done|].
  cbn [foldl]. apply IH. unfold backfill_line.
  destruct (read_line x.2) as [r|] eqn:Hread; [|done].
  case_bool_decide; [done|]. case_bool_decide; [done|].
  rewrite backfill_patterns_keys. cbn [pattern_matches]. rewrite Hb.
  pose proof (message_patterns_known _ _ Hread). set_solver.
Qed.

Lemma backfill_keys (root : option (list project_dir)) (ids0 : gset string)
    (counts0 : gmap string Z) :
  dom (pattern_matches (backfill_today_patterns root ids0 counts0).1) = dom PATTERNS.
Proof.
  destruct root as [projects|]; cbn [backfill_today_patterns fst].
  - rewrite scan_flatten. apply backfill_fold_keys. apply dom_zero_counts.
  - apply dom_zero_counts.
Qed.

Lemma steady_patterns_keys (project_name date : string) (names : list string)
    (p : pass) :
  dom (pattern_counts (stores (foldl (steady_pattern project_name date) p names)))
  = list_to_set names ∪ dom (pattern_counts (stores p)).
Proof.
  revert p. induction names as [|n names IH]; intros p; [set_solver|].
  cbn [foldl]. rewrite IH. cbn [steady_pattern stores pattern_counts].
  rewrite dom_insert_L. set_solver.
Qed.

Lemma steady_fold_keys (ls : list (string * line)) (p : pass) :
  dom (pattern_counts (stores p)) = dom PATTERNS →
  dom (pattern_counts (stores (foldl (λ a x, steady_line x.1 a x.2) p ls)))
  = dom PATTERNS.
Proof.
  revert p. induction ls as [|x ls IH]; intros p Hp; [done|].
  cbn [foldl]. apply IH. unfold steady_line.
  destruct (read_line x.2) as [r|] eqn:Hread; [|done].
  case_bool_decide; [done|]. case_bool_decide; [done|].
  cbn [stores]. rewrite steady_patterns_keys. cbn [stores pattern_counts]. rewrite Hp.
  pose proof (message_patterns_known _ _ Hread). set_solver.
Qed.

Lemma store_backfill_keys (items : list (string * Z))
    (acc : gmap string (gmap string Z) * list event) :
  (∀ item, item ∈ items → item.1 ∈ dom acc.1) →
  dom (foldl store_backfill acc items).1 = dom acc.1.
Proof.
  revert acc. induction items as [|[k c] items IH]; intros acc Hitems; [done|].
  cbn [foldl].
  assert (Hstep : dom (store_backfill acc (k, c)).1 = dom acc.1).
  { unfold store_backfill. case_bool_decide; [|done]. cbn [fst].
    rewrite dom_insert_L.
    specialize (Hitems (k, c) (list_elem_of_here _ _)). cbn in Hitems. set_solver. }
  rewrite IH, Hstep; [done|].
  intros item Hitem. rewrite Hstep. by apply Hitems, list_elem_of_further.
Qed.

(** X7.  The per-pattern counters have exactly the names of [PATTERNS]
    as keys when they are loaded, after the startup and after every
    pass, and a message only matches names of [PATTERNS]: no lookup
    [pattern_counts[pattern_name]] of the loop can miss. *)
Theorem pattern_counts_keep_their_keys
    (argv : list string) (d : disk) (root : option (list project_dir))
    (upload_ok : bool) (turns : list (list project_dir * bool)) :
  dom (pattern_counts (load d)) = dom PATTERNS
  ∧ dom (pattern_counts (held (startup argv d root upload_ok))) = dom PATTERNS
  ∧ dom (pattern_counts (main argv d root upload_ok turns).1) = dom PATTERNS
  ∧ (∀ l r, read_line l = Some r → message_patterns r ⊆ dom PATTERNS).
Proof.
  assert (Hstart : dom (pattern_counts (held (startup argv d root upload_ok)))
                   = dom PATTERNS).
  { destruct (startup_fields argv d root upload_ok) as (_ & _ & -> & _).
    rewrite store_backfill_keys; [apply dom_load|].
    intros [k c] Hitem. cbn [fst]. rewrite dom_load, <- (backfill_keys root
      (processed_ids (load d)) ∅).
    apply elem_of_map_to_list in Hitem. apply elem_of_dom. eauto. }
  split; [apply dom_load|]. split; [exact Hstart|].
  split; [|apply message_patterns_known].
  rewrite main_state. destruct (enters_loop _); [|exact Hstart].
  generalize dependent (held (startup argv d root upload_ok)).
  induction turns as [|turn turns IH]; intros s Hs; [done|].
  cbn [foldl]. apply IH. cbn [steady_pass fst]. unfold steady_scan.
  rewrite scan_flatten. by apply steady_fold_keys.
Qed.

End Keys.

Section StartupStores.
Context `{claude_counter}.

(** ** What the startup does to the other stores *)

Lemma backfill_processed (root : option (list project_dir)) (ids0 : gset string)
    (counts0 : gmap string Z) :
  ids0 ⊆ bf_processed_ids (backfill_today_patterns root ids0 counts0).1.
Proof.
  destruct root as [projects|]; [|done].
  destruct (backfill_counts projects ids0 counts0) as (-> & _). set_solver.
Qed.

Lemma pass_processed (url secret : option string) (s : state)
    (turn : list project_dir * bool) :
  processed_ids s ⊆ processed_ids (steady_pass url secret s turn).1.
Proof.
  cbn [steady_pass fst]. destruct (steady_scan_counts turn.1 s) as (-> & _).
  set_solver.
Qed.

Lemma passes_processed (url secret : option string)
    (turns : list (list project_dir * bool)) (s : state) :
  processed_ids s
  ⊆ processed_ids (foldl (λ s turn, (steady_pass url secret s turn).1) s turns).
Proof.
  revert s. induction turns as [|turn turns IH]; intros s; [done|].
  cbn [foldl]. etransitivity; [apply (pass_processed url secret s turn)|apply IH].
Qed.

(** X8.  No message id is ever removed from the processed-id set: the
    ids loaded from the store are still there after the startup, and
    the set only grows as the run goes on. *)
Theorem processed_ids_only_grow
    (argv : list string) (d : disk) (root : option (list project_dir))
    (upload_ok : bool) (turns more : list (list project_dir * bool)) :
  processed_ids (load d) ⊆ processed_ids (held (startup argv d root upload_ok))
  ∧ processed_ids (held (startup argv d root upload_ok))
    ⊆ processed_ids (main argv d root upload_ok turns).1
  ∧ processed_ids (main argv d root upload_ok turns).1
    ⊆ processed_ids (main argv d root upload_ok (turns ++ more)).1.
Proof.
  split; [|split].
  - destruct (startup_fields argv d root upload_ok) as (-> & _).
    apply backfill_processed.
  - rewrite main_state. destruct (enters_loop _); [apply passes_processed|done].
  - rewrite !main_state. destruct (enters_loop _); [|done].
    rewrite foldl_app. apply passes_processed.
Qed.

(** X9.  The startup recomputes the project counts from the log of
    today alone: the count of a project is the number of its messages
    of today, once per id, that match "absolutely", whatever the store
    of project counts held; without a scan root every count is 0. *)
Theorem startup_recounts_projects
    (argv : list string) (d : disk) (upload_ok : bool) (project_name : string) :
  (∀ projects,
     get0 (project_counts (held (startup argv d (Some projects) upload_ok)))
          project_name
     = absolutely_in project_name
         (once_per_id ∅ (of_today (results (scanned_lines projects)))))
  ∧ get0 (project_counts (held (startup argv d None upload_ok))) project_name = 0.
Proof.
  split.
  - intros projects.
    destruct (startup_fields argv d (Some projects) upload_ok) as (_ & -> & _).
    destruct (backfill_counts projects (processed_ids (load d)) ∅) as (_ & _ & ->).
    unfold get0. rewrite lookup_empty. cbn. lia.
  - by destruct (startup_fields argv d None upload_ok) as (_ & -> & _).
Qed.

(** X10.  The startup always overwrites the total-message count of
    today with the number of distinct message ids of today's assistant
    entries, 0 included (and 0 without a scan root), unlike the
    per-pattern counts; the totals of the other dates are kept. *)
Theorem startup_overwrites_the_total
    (argv : list string) (d : disk) (upload_ok : bool) :
  (∀ projects,
     total_messages_counts (held (startup argv d (Some projects) upload_ok))
     !! get_utc_today
     = Some (Z.of_nat (size (list_to_set (today_ids (scanned_lines projects))
                             : gset string))))
  ∧ total_messages_counts (held (startup argv d None upload_ok)) !! get_utc_today
    = Some 0
  ∧ (∀ root date,
       date ≠ get_utc_today →
       total_messages_counts (held (startup argv d root upload_ok)) !! date
       = total_messages_counts (load d) !! date).
Proof.
  split; [|split].
  - intros projects.
    destruct (startup_fields argv d (Some projects) upload_ok) as (_ & _ & _ & -> & _).
    rewrite lookup_insert_eq. f_equal.
    cbn [backfill_today_total_messages fst]. rewrite scan_flatten.
    rewrite (total_fold (scanned_lines projects) ∅).
    by rewrite (right_id_L ∅ (∪)).
  - destruct (startup_fields argv d None upload_ok) as (_ & _ & _ & -> & _).
    by rewrite lookup_insert_eq.
  - intros root date Hdate.
    destruct (startup_fields argv d root upload_ok) as (_ & _ & _ & -> & _).
    by rewrite lookup_insert_ne.
Qed.

End StartupStores.

Section DiskAndMemory.
Context `{claude_counter}.

(** ** The store files against the stores in memory *)

Lemma load_pattern_counts_lookup (d : disk) (name : string) :
  pattern_counts (load d) !! name
  = if bool_decide (name ∈ dom PATTERNS)
    then Some (default ∅ (daily_counts_json d !! name)) else None.
Proof.
  cbn [load pattern_counts]. rewrite map_lookup_imap.
  case_bool_decide as Hname.
  - apply elem_of_dom in Hname as [pattern ->]. done.
  - apply not_elem_of_dom in Hname. by rewrite Hname.
Qed.

(** Loading what [save_all] wrote gives the stores back. *)
Lemma load_saved (d : disk) (s : state) :
  dom (pattern_counts s) = dom PATTERNS →
  load (disk_after d (save_all s)) = s.
Proof.
  intros Hdom.
  destruct (disk_after_save_all d s) as (Hids & Hproj & Htotal & Hpc).
  assert (Hpatterns : pattern_counts (load (disk_after d (save_all s)))
                      = pattern_counts s).
  { apply map_eq. intros name. rewrite load_pattern_counts_lookup.
    case_bool_decide as Hname.
    - rewrite <- Hdom in Hname. apply elem_of_dom in Hname as [counts Hcounts].
      by rewrite (Hpc name counts Hcounts), Hcounts.
    - symmetry. apply not_elem_of_dom. by rewrite Hdom. }
  destruct s as [ids proj pc total].
  cbn [processed_ids project_counts pattern_counts total_messages_counts] in *.
  unfold load in *. cbn [pattern_counts] in Hpatterns.
  rewrite Hids, Hproj, Htotal, Hpatterns. done.
Qed.

(** What the loop over the backfilled totals saves. *)
Lemma store_backfill_saves (items : list (string * Z))
    (pc : gmap string (gmap string Z)) (out : list event) :
  NoDup items.*1 →
  ∃ saved,
    (foldl store_backfill (pc, out) items).2 = out ++ saved
    ∧ ∀ d,
        processed_ids_json (disk_after d saved) = processed_ids_json d
        ∧ project_counts_json (disk_after d saved) = project_counts_json d
        ∧ daily_total_messages_json (disk_after d saved) = daily_total_messages_json d
        ∧ ∀ name,
            daily_counts_json (disk_after d saved) !! name
            = match (list_to_map items : gmap string Z) !! name with
              | Some count =>
                  if bool_decide (0 < count)
                  then Some (<[get_utc_today := count]> (default ∅ (pc !! name)))
                  else daily_counts_json d !! name
              | None => daily_counts_json d !! name
              end.
Proof.
  revert pc out. induction items as [|[k c] items IH]; intros pc out Hnd.
  - exists []. split; [by rewrite app_nil_r|]. done.
  - cbn [fmap list_fmap fst] in Hnd. apply NoDup_cons in Hnd as [Hk Hnd].
    cbn [foldl]. unfold store_backfill at 2. cbn [fst snd].
    case_bool_decide as Hc.
    + destruct (IH (<[k := <[get_utc_today := c]> (default ∅ (pc !! k))]> pc)
                  (out ++ [SavePatternCounts k (<[get_utc_today := c]> (default ∅ (pc !! k)));
                           Print (MsgFoundPattern c k)]) Hnd)
        as (saved & Hout & Hdisk).
      exists ([SavePatternCounts k (<[get_utc_today := c]> (default ∅ (pc !! k)));
               Print (MsgFoundPattern c k)] ++ saved).
      split; [by rewrite Hout, <- app_assoc|].
      intros d. rewrite disk_after_app.
      destruct (Hdisk (disk_after d
                  [SavePatternCounts k (<[get_utc_today := c]> (default ∅ (pc !! k)));
                   Print (MsgFoundPattern c k)])) as (-> & -> & -> & Hdaily).
      repeat split; try done.
      intros name. rewrite Hdaily, list_to_map_cons. cbn.
      destruct (decide (k = name)) as [->|Hne].
      * rewrite (not_elem_of_list_to_map_1 items name) by done.
        rewrite !lookup_insert_eq. by rewrite bool_decide_eq_true_2.
      * by rewrite !lookup_insert_ne.
    + destruct (IH pc out Hnd) as (saved & Hout & Hdisk).
      exists saved. split; [done|].
      intros d. destruct (Hdisk d) as (-> & -> & -> & Hdaily).
      repeat split; try done.
      intros name. rewrite Hdaily, list_to_map_cons.
      destruct (decide (k = name)) as [->|Hne].
      * rewrite (not_elem_of_list_to_map_1 items name) by done.
        rewrite lookup_insert_eq. by rewrite bool_decide_eq_false_2.
      * by rewrite lookup_insert_ne.
Qed.


Lemma startup_upload_no_save (url secret : option string) (upload_ok : bool)
    (s : state) :
  Forall (λ e, is_save e = false) (startup_upload url secret upload_ok s).
Proof. unfold startup_upload. destruct (truthy url); by repeat constructor. Qed.

Lemma backfill_prints (root : option (list project_dir)) (ids0 : gset string)
    (counts0 : gmap string Z) :
  Forall (λ e, is_save e = false) (backfill_today_total_messages root).2
  ∧ Forall (λ e, is_save e = false) (backfill_today_patterns root ids0 counts0).2.
Proof. destruct root; split; by repeat constructor. Qed.

(** After the startup the store files hold what [main] holds. *)
Lemma startup_disk (argv : list string) (d : disk)
    (root : option (list project_dir)) (upload_ok : bool) :
  load (disk_after d (effects (startup argv d root upload_ok)))
  = held (startup argv d root upload_ok).
Proof.
  destruct (backfill_prints root (processed_ids (load d)) ∅) as [Hp1 Hp2].
  pose proof (backfill_keys root (processed_ids (load d)) ∅) as Hkeys.
  unfold startup.
  destruct (Cli.parse_args SERVER_URL argv) as [url secret].
  destruct (backfill_today_total_messages root) as [n out_total].
  destruct (backfill_today_patterns root (processed_ids (load d)) ∅)
    as [b out_patterns].
  cbn [fst snd] in Hp1, Hp2, Hkeys.
  destruct (store_backfill_saves (map_to_list (pattern_matches b))
              (pattern_counts (load d)) [] (NoDup_fst_map_to_list _))
    as (saved & Hout & Hdisk).
  pose proof (λ name, store_backfill_fold (map_to_list (pattern_matches b))
                        (pattern_counts (load d), []) name
                        (NoDup_fst_map_to_list _)) as Hmem.
  destruct (foldl store_backfill _ _) as [pc out_store].
  cbn [fst snd app] in Hout, Hmem. subst out_store.
  cbn [held effects processed_ids project_counts].
  rewrite !disk_after_app.
  rewrite (disk_after_no_save d [Print _]) by (by repeat constructor).
  rewrite (disk_after_no_save d out_total) by done.
  set (d1 := disk_after d [SaveTotalMessagesCounts _; Print _]).
  rewrite (disk_after_no_save d1 out_patterns) by done.
  destruct (Hdisk d1) as (Hids & Hproj & Htotal & Hdaily).
  set (d2 := disk_after d1 saved) in *.
  set (d3 := disk_after d2 [SaveProcessedIds _; SaveProjectCounts _]).
  rewrite (disk_after_no_save d3 (startup_upload _ _ _ _))
    by apply startup_upload_no_save.
  rewrite (disk_after_no_save d3 [Print _]) by (by repeat constructor).
  rewrite (disk_after_no_save d3) by (destruct root; by repeat constructor).
  assert (Hpatterns : pattern_counts (load d3) = pc).
  { apply map_eq. intros name. rewrite load_pattern_counts_lookup.
    change (daily_counts_json d3) with (daily_counts_json d2).
    rewrite Hdaily, Hmem, list_to_map_to_list.
    change (daily_counts_json d1) with (daily_counts_json d).
    rewrite (load_pattern_counts_lookup d name).
    case_bool_decide as Hname.
    - rewrite <- Hkeys in Hname. apply elem_of_dom in Hname as [c ->].
      by case_bool_decide.
    - rewrite <- Hkeys in Hname. apply not_elem_of_dom in Hname. by rewrite Hname. }
  unfold load in *. cbn [pattern_counts] in Hpatterns. rewrite Hpatterns.
  f_equal.
  change (daily_total_messages_json d3) with (daily_total_messages_json d2).
  by rewrite Htotal.
Qed.

(** After a pass the store files hold what the pass leaves in memory. *)
Lemma pass_disk (url secret : option string) (s : state)
    (turn : list project_dir * bool) (d : disk) :
  dom (pattern_counts s) = dom PATTERNS →
  load d = s →
  load (disk_after d (steady_pass url secret s turn).2) = (steady_pass url secret s turn).1
  ∧ dom (pattern_counts (steady_pass url secret s turn).1) = dom PATTERNS.
Proof.
  intros Hdom Hload.
  assert (Hdom' : dom (pattern_counts (steady_pass url secret s turn).1) = dom PATTERNS).
  { cbn [steady_pass fst]. unfold steady_scan. rewrite scan_flatten.
    by apply steady_fold_keys. }
  split; [|exact Hdom'].
  destruct turn as [projects upload_ok].
  destruct (once_per_id (processed_ids s) (results (scanned_lines projects)))
    as [|x new] eqn:Hnew.
  - pose proof (proj1 (once_per_id_nil _ _) Hnew) as Hall.
    rewrite (steady_pass_idle url secret s projects upload_ok Hall). exact Hload.
  - assert (Hfound : found_new (steady_scan projects s) = true).
    { unfold found_new. destruct (steady_scan_counts projects s) as (_ & -> & _).
      rewrite Hnew. apply orb_true_iff. right. apply bool_decide_eq_true_2.
      cbn [length]. lia. }
    cbn [steady_pass fst snd] in *. unfold report. rewrite Hfound.
    rewrite !disk_after_app.
    rewrite (disk_after_no_save d (notified _)).
    2: { eapply Forall_impl.
         - unfold steady_scan. rewrite scan_flatten. by apply notified_prints.
         - by intros e [? ?]. }
    rewrite (disk_after_no_save _ [Print _]) by (by repeat constructor).
    rewrite (disk_after_no_save _ (pass_upload _ _ _ _)) by apply pass_upload_no_save.
    by apply load_saved.
Qed.

(** X11.  At the end of the startup and at the end of every pass, the
    store files hold exactly what the engine holds in memory: loading
    them gives the same stores, so a process that stops between two
    passes loses nothing.  (Inside the startup and inside a pass the
    files lag behind; the per-pattern files of names outside
    [PATTERNS] are left as they are and never read.) *)
Theorem store_files_match_memory
    (argv : list string) (d : disk) (root : option (list project_dir))
    (upload_ok : bool) (turns : list (list project_dir * bool)) :
  load (disk_after d (main argv d root upload_ok turns).2)
  = (main argv d root upload_ok turns).1.
Proof.
  unfold main. pose proof (startup_disk argv d root upload_ok) as Hstart.
  assert (Hdom : dom (pattern_counts (held (startup argv d root upload_ok)))
                 = dom PATTERNS).
  { destruct (startup_fields argv d root upload_ok) as (_ & _ & -> & _).
    rewrite store_backfill_keys; [apply dom_load|].
    intros [k c] Hitem. cbn [fst].
    rewrite dom_load, <- (backfill_keys root (processed_ids (load d)) ∅).
    apply elem_of_map_to_list in Hitem. apply elem_of_dom. eauto. }
  destruct (enters_loop _); [|exact Hstart].
  set (m := startup argv d root upload_ok) in *.
  unfold steady_loop.
  assert (Hloop : ∀ turns s out,
             dom (pattern_counts s) = dom PATTERNS →
             load (disk_after (disk_after d (effects m)) out) = s →
             let final := foldl (λ acc turn,
                                   let '(s', out) :=
                                     steady_pass (api_url m) (api_secret m) acc.1 turn in
                                   (s', acc.2 ++ out))
                                (s, out) turns in
             load (disk_after (disk_after d (effects m)) final.2) = final.1).
  { clear. intros turns. induction turns as [|turn turns IH]; intros s out Hdom Hload.
    - done.
    - cbn [foldl fst snd].
      destruct (pass_disk (api_url m) (api_secret m) s turn
                  (disk_after (disk_after d (effects m)) out) Hdom Hload)
        as [Hload' Hdom'].
      destruct (steady_pass (api_url m) (api_secret m) s turn) as [s' out'].
      cbn [fst snd] in *. apply IH; [done|]. by rewrite disk_after_app. }
  specialize (Hloop turns (held m) [] Hdom Hstart). cbn zeta in Hloop.
  destruct (foldl _ _ _) as [s out]. cbn [fst snd] in *.
  by rewrite disk_after_app.
Qed.

End DiskAndMemory.

Section FinalCounts.
Context `{claude_counter}.

(** ** The totals printed at the interrupt *)

Lemma sum_values_insert (k : string) (v : Z) (counts : gmap string Z) :
  counts !! k = None → sum_values (<[k := v]> counts) = v + sum_values counts.
Proof.
  intros Hk. unfold sum_values.
  rewrite (map_fold_insert_L (λ (_ : string) (count total : Z), count + total));
    [done| |done].
  intros. lia.
Qed.

Lemma sum_values_incr (k : string) (counts : gmap string Z) :
  sum_values (incr k counts) = sum_values counts + 1.
Proof.
  unfold incr. destruct (counts !! k) as [v|] eqn:Hk; cbn [default from_option id].
  - rewrite <- (insert_delete_id counts k v Hk) at 2.
    rewrite <- (insert_delete_eq counts k (v + 1)).
    rewrite !sum_values_insert by apply lookup_delete_eq. lia.
  - rewrite sum_values_insert by done. lia.
Qed.

Lemma final_count_pattern (project_name date : string) (p : pass)
    (n name : string) :
  final_count (stores (steady_pattern project_name date p n)) name
  = final_count (stores p) name + if bool_decide (n = name) then 1 else 0.
Proof.
  unfold final_count. cbn [steady_pattern stores pattern_counts].
  case_bool_decide as Hn.
  - subst. rewrite lookup_insert_eq. cbn [default from_option id].
    apply sum_values_incr.
  - rewrite lookup_insert_ne by done. lia.
Qed.

Lemma final_count_patterns (project_name date : string) (names : list string)
    (p : pass) (name : string) :
  NoDup names →
  final_count (stores (foldl (steady_pattern project_name date) p names)) name
  = final_count (stores p) name + if bool_decide (name ∈ names) then 1 else 0.
Proof.
  intros Hnd. revert p. induction Hnd as [|n names Hn Hnd IH]; intros p.
  - cbn. ite_cases.
  - cbn [foldl]. rewrite IH, final_count_pattern. ite_cases.
Qed.

Lemma final_count_line (project_name : string) (p : pass) (l : line) (r : result)
    (name : string) :
  read_line l = Some r →
  msg_id r ∉ processed_ids (stores p) →
  final_count (stores (steady_line project_name p l)) name
  = final_count (stores p) name
    + if bool_decide (name ∈ message_patterns r) then 1 else 0.
Proof.
  intros Hread Hnew. unfold steady_line. rewrite Hread.
  rewrite (bool_decide_eq_false_2 _ Hnew). case_bool_decide as Hempty.
  - rewrite Hempty. unfold final_count. cbn [stores pattern_counts]. ite_cases.
  - cbn [stores]. rewrite final_count_patterns by apply NoDup_elements.
    unfold final_count at 2. cbn [stores pattern_counts]. fold (final_count (stores p) name).
    f_equal. apply (f_equal (λ c : bool, if c then 1 else 0)).
    apply bool_decide_ext. by rewrite elem_of_elements.
Qed.

Lemma matching_any_date_cons (name : string) (x : string * result)
    (rs : list (string * result)) :
  matching_any_date name (x :: rs)
  = (if bool_decide (name ∈ message_patterns x.2) then 1 else 0)
    + matching_any_date name rs.
Proof.
  unfold matching_any_date. rewrite filter_cons.
  case_decide; case_bool_decide; try done; cbn [length]; lia.
Qed.

Lemma final_count_fold (ls : list (string * line)) (p : pass) (name : string) :
  final_count (stores (foldl (λ a x, steady_line x.1 a x.2) p ls)) name
  = final_count (stores p) name
    + matching_any_date name (once_per_id (processed_ids (stores p)) (results ls)).
Proof.
  revert p. induction ls as [|x ls IH]; intros p.
  - unfold matching_any_date. cbn. lia.
  - cbn [foldl]. rewrite results_cons.
    destruct (read_line x.2) as [r|] eqn:Hread.
    + cbn [once_per_id snd]. case_bool_decide as Hin.
      * rewrite steady_line_skips by (by rewrite Hread). apply IH.
      * rewrite IH, (final_count_line x.1 p x.2 r name Hread Hin).
        destruct (steady_line_counts x.1 p x.2 r Hread Hin) as (-> & _).
        rewrite matching_any_date_cons. cbn [snd]. lia.
    + rewrite steady_line_skips by (by rewrite Hread). apply IH.
Qed.

Lemma matching_any_date_nonneg (name : string) (rs : list (string * result)) :
  0 ≤ matching_any_date name rs.
Proof. unfold matching_any_date. lia. Qed.

(** X13.  The total [main] prints for a pattern when it is interrupted
    is the total at the start of the pass plus, for each pass, the
    number of new messages (once per id, of any date) that match the
    pattern; so it never decreases from one pass to the next. *)
Theorem final_count_adds_the_new_matches
    (url secret : option string) (s : state) (turn : list project_dir * bool)
    (name : string) :
  final_count (steady_pass url secret s turn).1 name
  = final_count s name
    + matching_any_date name
        (once_per_id (processed_ids s) (results (scanned_lines turn.1)))
  ∧ final_count s name ≤ final_count (steady_pass url secret s turn).1 name
  ∧ (∀ argv d root upload_ok turns more,
       final_count (main argv d root upload_ok turns).1 name
       ≤ final_count (main argv d root upload_ok (turns ++ more)).1 name).
Proof.
  assert (Hpass : ∀ url secret s turn,
             final_count (steady_pass url secret s turn).1 name
             = final_count s name
               + matching_any_date name
                   (once_per_id (processed_ids s) (results (scanned_lines turn.1)))).
  { intros url' secret' s' turn'. cbn [steady_pass fst]. unfold steady_scan.
    rewrite scan_flatten. apply (final_count_fold _ (pass_init s')). }
  assert (Hle : ∀ url secret s turn,
             final_count s name ≤ final_count (steady_pass url secret s turn).1 name).
  { intros url' secret' s' turn'. rewrite Hpass.
    pose proof (matching_any_date_nonneg name
                  (once_per_id (processed_ids s') (results (scanned_lines turn'.1)))).
    lia. }
  split; [apply Hpass|]. split; [apply Hle|].
  intros argv d root upload_ok turns more. rewrite !main_state.
  destruct (enters_loop _); [|done]. rewrite foldl_app.
  generalize (foldl (λ s turn, (steady_pass (api_url (startup argv d root upload_ok))
                                  (api_secret (startup argv d root upload_ok)) s turn).1)
                    (held (startup argv d root upload_ok)) turns).
  induction more as [|t more IH]; intros s0; [done|].
  cbn [foldl]. etransitivity; [|apply IH]. apply Hle.
Qed.

End FinalCounts.

Section Uploads.
Context `{claude_counter}.

(** ** What is uploaded, and when *)

Lemma no_uploads (trace : list event) :
  Forall (λ e, is_upload e = false) trace →
  filter (λ e, is_upload e = true) trace = [].
Proof.
  induction 1 as [|e trace He _ IH]; [done|].
  rewrite filter_cons, decide_False by congruence. exact IH.
Qed.

Lemma store_backfill_no_upload (items : list (string * Z))
    (acc : gmap string (gmap string Z) * list event) :
  Forall (λ e, is_upload e = false) acc.2 →
  Forall (λ e, is_upload e = false) (foldl store_backfill acc items).2.
Proof.
  revert acc. induction items as [|[k c] items IH]; intros acc Hacc; [done|].
  cbn [foldl]. apply IH. unfold store_backfill. case_bool_decide; [|done].
  cbn [snd]. apply Forall_app. split; [done|]. by repeat constructor.
Qed.

(** X14.  The engine uploads at most once in the startup and at most
    once per pass, never without a configured URL (a missing or empty
    one), and in a pass only if the pass found something new; what it
    uploads are the counts of today of the stores it holds at that
    point, which it has just saved. *)
Theorem uploads_carry_the_held_counts
    (argv : list string) (d : disk) (root : option (list project_dir))
    (upload_ok : bool) (url secret : option string) (s : state)
    (turn : list project_dir * bool) :
  let m := startup argv d root upload_ok in
  let after := (steady_pass url secret s turn).1 in
  filter (λ e, is_upload e = true) (effects m)
  = (if truthy (api_url m)
     then [UploadToApi (default "" (api_url m)) (api_secret m) get_utc_today
                       (today_patterns (held m)) (today_total (held m))]
     else [])
  ∧ filter (λ e, is_upload e = true) (steady_pass url secret s turn).2
    = (if found_new (steady_scan turn.1 s) && truthy url
       then [UploadToApi (default "" url) secret get_utc_today
                         (today_patterns after) (today_total after)]
       else []).
Proof.
  intros m after. split.
  - subst m. unfold startup.
    destruct (Cli.parse_args SERVER_URL argv) as [url0 secret0].
    destruct (backfill_today_total_messages root) as [n out_total] eqn:Htotal.
    destruct (backfill_today_patterns root (processed_ids (load d)) ∅)
      as [b out_patterns] eqn:Hpatterns.
    pose proof (store_backfill_no_upload (map_to_list (pattern_matches b))
                  (pattern_counts (load d), []) (Forall_nil_2 _)) as Hstore.
    destruct (foldl store_backfill _ _) as [pc out_store]. cbn [snd] in Hstore.
    cbn [held api_url api_secret effects].
    assert (Hout1 : Forall (λ e, is_upload e = false) out_total).
    { destruct root; injection Htotal as <- <-; by repeat constructor. }
    assert (Hout2 : Forall (λ e, is_upload e = false) out_patterns).
    { destruct root; injection Hpatterns as <- <-; by repeat constructor. }
    rewrite !filter_app.
    rewrite (no_uploads out_total), (no_uploads out_patterns),
      (no_uploads out_store) by done.
    rewrite (no_uploads (match root with Some _ => _ | None => _ end))
      by (destruct root; by repeat constructor).
    unfold startup_upload. by destruct (truthy url0).
  - subst after. cbn [steady_pass fst snd]. rewrite filter_app.
    rewrite (no_uploads (notified _)).
    2: { eapply Forall_impl.
         - unfold steady_scan. rewrite scan_flatten. by apply notified_prints.
         - by intros e [? ?]. }
    unfold report. destruct (found_new _); [|done].
    rewrite !filter_app. rewrite (no_uploads (save_all _)) by apply save_all_no_upload.
    unfold pass_upload. by destruct (truthy url), turn.2.
Qed.

End Uploads.

Section ConcreteStartup.
#[local] Existing Instance Example.counter.

Lemma startup_overwrites_the_total_witness :
  "2024-01-01" ≠ get_utc_today
  ∧ total_messages_counts
      (held (startup ["watcher.py"] Example.stale (Some Example.three_today) false))
    !! "2024-01-01"
    = total_messages_counts (load Example.stale) !! "2024-01-01".
Proof.
  assert (Hdate : "2024-01-01" ≠ get_utc_today) by discriminate.
  split; [exact Hdate|].
  exact (proj2 (proj2 (startup_overwrites_the_total ["watcher.py"] Example.stale false))
           (Some Example.three_today) "2024-01-01" Hdate).
Defined.

End ConcreteStartup.
